(** * pyHRV / pyphysio: peak-description indicators and package wiring

    A shallow embedding of [pyphysio/indicators/PeaksDescription.py] (the nine
    peak indicators), of the import structure of the [pyHRV] package
    ([__init__.py], [Files.py], [galaxy/GalaxyFilter.py]) and of the column
    loader of [Files.py].

    Numbers.  Python floats are embedded through the interface [Number].  Two
    instances are given: [exact] (rationals plus NaN, no rounding) and
    [binary64] (the kernel's IEEE-754 doubles), on which the code can be
    evaluated bit for bit.  What rests on comparison alone is proved for
    both, through the order laws they share ([OrderLaws]); what rests on the
    arithmetic of the mean is proved on [exact] and, where doubles keep it,
    on [binary64] from the kernel's specification of its floats.

    Tools.  [PeaksDescription.py] imports [BaseIndicator], [Parameters] and
    [tools.Tools], none of which is among the sources.  The indicators are
    embedded over the interface [Tools] (the four tools they call), so what is
    proved of them alone holds whatever the tools are.  The tools themselves,
    parameter resolution and the diagnostic hook are modelled from the
    specification and marked as such; [spec_tools] is the instance that closed
    statements use.

    Layout.  Definitions come first (numbers, the computation monad, the
    indicators, the tools of the spec, the package import, the column loader,
    the predicates of the claims, the shape of the algorithms, concrete
    signals); lemmas and the theorems of the claims follow, then further
    properties of the nine algorithms and of the loader. *)

From Stdlib Require Import ZArith QArith Lqa Lia Floats Sorted.
From stdpp Require Import base strings gmap list sorting.

Close Scope Q_scope.
Local Open Scope Z_scope.
Local Open Scope nat_scope.

(* ===================================================================== *)
(** ** Numbers *)

(** The operations the indicators perform on Python floats. *)
Class Number (F : Type) := {
  nan : F;
  isnan : F → bool;
  flt : F → F → bool;          (* x < y ; false when either side is NaN *)
  fadd : F → F → F;
  fsub : F → F → F;
  fmul : F → F → F;
  fdiv : F → F → F;
  of_Z : Z → F;                (* float(n) *)
  to_int : F → option Z        (* int(x), undefined on NaN and infinities *)
}.

(** *** Exact numbers: rationals and NaN *)

Inductive exact := NaN | Real (q : Q).

Definition Qltb (x y : Q) : bool :=
  match Qcompare x y with Lt => true | _ => false end.

Definition exact_isnan (x : exact) : bool :=
  match x with NaN => true | Real _ => false end.

Definition exact_lt (x y : exact) : bool :=
  match x, y with Real a, Real b => Qltb a b | _, _ => false end.

Definition exact_lift (op : Q → Q → Q) (x y : exact) : exact :=
  match x, y with Real a, Real b => Real (Qred (op a b)) | _, _ => NaN end.

(** 0/0 is NaN; x/0 with x non-zero would be an infinity, which [exact] does
    not have, and is NaN here as well. *)
Definition exact_div (x y : exact) : exact :=
  match x, y with
  | Real a, Real b => if Qeq_bool b 0 then NaN else Real (Qred (a / b))
  | _, _ => NaN
  end.

Definition exact_to_int (x : exact) : option Z :=
  match x with NaN => None | Real q => Some (Z.quot (Qnum q) (Zpos (Qden q))) end.

#[global] Instance exact_number : Number exact := {|
  nan := NaN;
  isnan := exact_isnan;
  flt := exact_lt;
  fadd := exact_lift Qplus;
  fsub := exact_lift Qminus;
  fmul := exact_lift Qmult;
  fdiv := exact_div;
  of_Z := λ z, Real (inject_Z z);
  to_int := exact_to_int
|}.

(** [x ≤ y] on exact numbers, false when either side is NaN. *)
Definition exact_le (x y : exact) : Prop :=
  match x, y with Real a, Real b => Qle a b | _, _ => False end.

(** *** IEEE-754 binary64 *)

Definition binary64_to_int (x : float) : option Z :=
  match Prim2SF x with
  | S754_zero _ => Some 0%Z
  | S754_finite s m e =>
      let a := if (0 <=? e)%Z then (Zpos m * 2 ^ e)%Z else (Zpos m / 2 ^ (- e))%Z in
      Some (if s then (- a)%Z else a)
  | _ => None
  end.

(** The kernel's doubles.  [of_Z n] is [float(n)] for the integers below
    2^63 in magnitude, which [of_uint63] converts with at most one rounding;
    the counts and literals of the indicators lie far below. *)
#[global] Instance binary64_number : Number float := {|
  nan := PrimFloat.nan;
  isnan := PrimFloat.is_nan;
  flt := PrimFloat.ltb;
  fadd := PrimFloat.add;
  fsub := PrimFloat.sub;
  fmul := PrimFloat.mul;
  fdiv := PrimFloat.div;
  of_Z := λ z, match z with
               | Z0 => PrimFloat.zero
               | Zpos _ => PrimFloat.of_uint63 (Uint63.of_Z z)
               | Zneg _ => PrimFloat.opp (PrimFloat.of_uint63 (Uint63.of_Z (- z)))
               end;
  to_int := binary64_to_int
|}.

(* ===================================================================== *)
(** ** Exceptions, warnings and the computation monad *)

Inductive exn :=
| KeyError (key : string)
| AttributeError (name : string)
| ImportError (name : string)
| ParameterError (name : string)
| NameError (name : string)
| TypeError (msg : string)
| ValueError (msg : string).

Inductive outcome (A : Type) :=
| Return (a : A)
| Raise (e : exn).
Arguments Return {A} a.
Arguments Raise {A} e.

(** A computation ends in a value or an exception and leaves the messages it
    passed to the diagnostic hook, in order. *)
Definition Py (A : Type) : Type := outcome A * list string.

#[global] Instance Py_ret : MRet Py := λ A a, (Return a, []).

#[global] Instance Py_bind : MBind Py := λ A B f m,
  match m with
  | (Return a, w) => let '(r, w') := f a in (r, w ++ w')
  | (Raise e, w) => (Raise e, w)
  end.

Definition raise {A} (e : exn) : Py A := (Raise e, []).

(** Modelled from the spec: [BaseIndicator.Indicator.warn] is not among the
    sources.  Section 4.2: warnings are reported through a side-channel
    diagnostic sink, not exceptions. *)
Definition warn (msg : string) : Py unit := (Return tt, [msg]).

(* ===================================================================== *)
(** ** The indicator framework: [PeaksDescription.py] *)

Section Pyphysio.
Context {F : Type} `{!Number F}.

(** Python values that travel through keyword arguments and results. *)
Inductive value :=
| VFloat (x : F)
| VInt (n : Z)
| VStr (s : string)
| VIdx (l : list nat).            (* an array of sample indices *)

(** A sampled signal: [len(signal)], [signal[i]] and its sampling frequency. *)
Record Signal := mkSignal { samples : list F; fsamp : F }.

Definition positive (x : F) : bool := flt (of_Z 0) x.      (* lambda x: x > 0 *)

(** *** Parameter descriptors *)

Inductive pytype := float_t.

(** The positional arguments of [_Par(...)] in [_params_descriptors]. *)
Record ParameterDescriptor := _Par {
  requirement : Z;
  expected_type : pytype;
  description : string;
  default_value : value;
  validity_predicate : F → bool
}.

(** Modelled from the spec: [Parameters.Parameter] is not among the sources.
    Section 4.1: a value of the wrong type is coerced where it can be (an int
    where a float is expected). *)
Definition coerce (t : pytype) (v : value) : option F :=
  match t, v with
  | float_t, VFloat x => Some x
  | float_t, VInt n => Some (of_Z n)
  | float_t, _ => None
  end.

(** Modelled from the spec: [Parameters.Parameter] is not among the sources.
    Section 4.1: [resolve(provided_value_or_absent)] fails with a
    ParameterError when the parameter is required and absent, has a wrong type
    that is not coercible, or the validity predicate rejects the value.
    Requirement level 2 marks a required parameter (the one the constructors
    take positionally), level 0 an optional one. *)
Definition resolve (name : string) (p : ParameterDescriptor) (provided : option value) : Py value :=
  match provided, (requirement p =? 2)%Z with
  | None, true => raise (ParameterError name)
  | _, _ =>
      match coerce (expected_type p) (default (default_value p) provided) with
      | None => raise (ParameterError name)
      | Some x => if validity_predicate p x then mret (VFloat x)
                  else raise (ParameterError name)
      end
  end.

(** Modelled from the spec: [BaseIndicator.Indicator.__init__] is not among
    the sources.  Section 4.2: construction resolves all declared parameters
    against the supplied keyword values, raising immediately on any invalid
    parameter.  The result is the resolved parameter map. *)
Fixpoint Indicator_init (descriptors : list (string * ParameterDescriptor))
    (kwargs : gmap string value) : Py (gmap string value) :=
  match descriptors with
  | [] => mret ∅
  | (name, p) :: rest =>
      v ← resolve name p (kwargs !! name);
      params ← Indicator_init rest kwargs;
      mret (<[name := v]> params)
  end.

(** [params[key]] on a Python dict. *)
Definition getitem (params : gmap string value) (key : string) : Py value :=
  match params !! key with
  | Some v => mret v
  | None => raise (KeyError key)
  end.

(** *** numpy reductions *)

(** [numpy.fmax] and [numpy.fmin]: the other operand when one is NaN. *)
Definition fmax (x y : F) : F :=
  if isnan x then y else if isnan y then x else if flt x y then y else x.

Definition fmin (x y : F) : F :=
  if isnan x then y else if isnan y then x else if flt y x then y else x.

(** [numpy.nanmax], [numpy.nanmin]: the [fmax]/[fmin] reduction of the array;
    a zero-size array raises ValueError. *)
Definition nanmax (a : list F) : Py F :=
  match a with
  | [] => raise (ValueError "zero-size array to reduction operation")
  | x :: l => mret (fold_left fmax l x)
  end.

Definition nanmin (a : list F) : Py F :=
  match a with
  | [] => raise (ValueError "zero-size array to reduction operation")
  | x :: l => mret (fold_left fmin l x)
  end.

(** [numpy.nanmean]: NaN entries are replaced by 0, the array is summed and
    divided by the number of entries that are not NaN (0/0 = NaN when there is
    none).  The sum runs left to right, as numpy does for fewer than eight
    elements. *)
Definition nansum (a : list F) : F :=
  fold_left fadd (map (λ x, if isnan x then of_Z 0 else x) a) (of_Z 0).

Definition nancount (a : list F) : nat :=
  length (filter (λ x, isnan x = false) a).

Definition nanmean (a : list F) : F :=
  fdiv (nansum a) (of_Z (Z.of_nat (nancount a))).

(** *** The tools the indicators import *)

(** What peak detection returns: [idx_maxs, idx_mins, val_maxs, val_mins]. *)
Definition PeakSet : Type := list nat * list nat * list F * list F.

(** [from ..tools.Tools import PeakDetection as _PeakDetection, PeakSelection
    as _PeakSelection, Durations as _Durations, Slopes as _Slopes]: a tool is
    built from keyword arguments and applied to a signal.  [tools.Tools] is
    not among the sources; the indicators are embedded over any four tools,
    and the tools of the spec are given further down. *)
Class Tools := {
  _PeakDetection : gmap string value → Signal → Py PeakSet;
  _PeakSelection : gmap string value → Signal → Py (list nat * list nat);
  _Durations : gmap string value → Signal → Py (list F);
  _Slopes : gmap string value → Signal → Py (list F)
}.

Section Indicators.
Context `{!Tools}.

(** *** The amplitude group: [_Peaks] and its four indicators *)

Definition Peaks_params_descriptors : list (string * ParameterDescriptor) :=
  [ ("delta", _Par 2 float_t "Amplitude of the minimum peak (>0)" (VInt 0) positive) ].

(** [__init__(self, delta, **kwargs)]: [delta] is a required argument of the
    constructor itself. *)
Definition Peaks_init (kwargs : gmap string value) : Py (gmap string value) :=
  match kwargs !! "delta" with
  | None => raise (TypeError "__init__() takes at least 2 arguments")
  | Some _ => Indicator_init Peaks_params_descriptors kwargs
  end.

Definition PeaksMax_algorithm (signal : Signal) (params : gmap string value) : Py value :=
  delta ← getitem params "delta";
  '(idx_maxs, idx_mins, val_maxs, val_mins) ← _PeakDetection {[ "delta" := delta ]} signal;
  if decide (length idx_maxs = 0) then
    _ ← warn "No peak found"; mret (VFloat nan)
  else
    r ← nanmax val_maxs; mret (VFloat r).

Definition PeaksMin_algorithm (data : Signal) (params : gmap string value) : Py value :=
  delta ← getitem params "delta";
  '(idx_maxs, idx_mins, val_maxs, val_mins) ← _PeakDetection {[ "delta" := delta ]} data;
  if decide (length idx_maxs = 0) then
    _ ← warn "No peak found"; mret (VFloat nan)
  else
    r ← nanmin val_maxs; mret (VFloat r).

Definition PeaksMean_algorithm (data : Signal) (params : gmap string value) : Py value :=
  delta ← getitem params "delta";
  '(idx_maxs, idx_mins, val_maxs, val_mins) ← _PeakDetection {[ "delta" := delta ]} data;
  if decide (length idx_maxs = 0) then
    _ ← warn "No peak found"; mret (VFloat nan)
  else
    mret (VFloat (nanmean val_maxs)).

Definition PeaksNum_algorithm (signal : Signal) (params : gmap string value) : Py value :=
  delta ← getitem params "delta";
  '(idx_maxs, idx_mins, val_maxs, val_mins) ← _PeakDetection {[ "delta" := delta ]} signal;
  if decide (length idx_maxs = 0) then
    _ ← warn "No peak found"; mret (VFloat nan)
  else
    mret (VInt (Z.of_nat (length idx_maxs))).

(** *** The interval group: [_PeaksInterval] and its six indicators *)

Definition PeaksInterval_params_descriptors : list (string * ParameterDescriptor) :=
  [ ("delta", _Par 2 float_t "Amplitude of the minimum peak" (VInt 0) positive);
    ("pre_max", _Par 0 float_t
       "Duration (in seconds) of interval before the peak that is considered to find the start of the peak (>0)"
       (VInt 1) positive);
    ("post_max", _Par 0 float_t
       "Duration (in seconds) of interval after the peak that is considered to find the start of the peak (>0)"
       (VInt 1) positive) ].

(** [__init__(self, delta, pre_max=1, post_max=1, **kwargs)]. *)
Definition PeaksInterval_init (kwargs : gmap string value) : Py (gmap string value) :=
  match kwargs !! "delta" with
  | None => raise (TypeError "__init__() takes at least 2 arguments")
  | Some _ =>
      let pre_max := default (VInt 1) (kwargs !! "pre_max") in
      let post_max := default (VInt 1) (kwargs !! "post_max") in
      Indicator_init PeaksInterval_params_descriptors
        (<["pre_max" := pre_max]> (<["post_max" := post_max]> kwargs))
  end.

Definition DurationMin_algorithm (signal : Signal) (params : gmap string value) : Py value :=
  delta ← getitem params "delta";
  win_pre ← getitem params "win_pre";
  win_post ← getitem params "win_post";
  '(idx_maxs, idx_mins, val_maxs, val_mins) ← _PeakDetection {[ "delta" := delta ]} signal;
  if decide (length idx_maxs = 0) then
    _ ← warn "No peaks found"; mret (VFloat nan)
  else
    '(idxs_start, idxs_stop) ←
      _PeakSelection {[ "idx_max" := VIdx idx_maxs; "win_pre" := win_pre;
                       "win_post" := win_post ]} signal;
    if decide (length idxs_start = 0) then
      _ ← warn "Unable to detect the start of the peaks"; mret (VFloat nan)
    else
      durations ← _Durations {[ "starts" := VIdx idxs_start; "stops" := VIdx idxs_stop ]} signal;
      r ← nanmin durations; mret (VFloat r).

Definition DurationMax_algorithm (signal : Signal) (params : gmap string value) : Py value :=
  delta ← getitem params "delta";
  win_pre ← getitem params "win_pre";
  win_post ← getitem params "win_post";
  '(idx_maxs, idx_mins, val_maxs, val_mins) ← _PeakDetection {[ "delta" := delta ]} signal;
  if decide (length idx_maxs = 0) then
    _ ← warn "No peaks found"; mret (VFloat nan)
  else
    '(idxs_start, idxs_stop) ←
      _PeakSelection {[ "idx_max" := VIdx idx_maxs; "win_pre" := win_pre;
                       "win_post" := win_post ]} signal;
    if decide (length idxs_start = 0) then
      _ ← warn "Unable to detect the start of the peaks"; mret (VFloat nan)
    else
      durations ← _Durations {[ "starts" := VIdx idxs_start; "stops" := VIdx idxs_stop ]} signal;
      r ← nanmax durations; mret (VFloat r).

Definition DurationMean_algorithm (signal : Signal) (params : gmap string value) : Py value :=
  delta ← getitem params "delta";
  win_pre ← getitem params "win_pre";
  win_post ← getitem params "win_post";
  '(idx_maxs, idx_mins, val_maxs, val_mins) ← _PeakDetection {[ "delta" := delta ]} signal;
  if decide (length idx_maxs = 0) then
    _ ← warn "No peaks found"; mret (VFloat nan)
  else
    '(idxs_start, idxs_stop) ←
      _PeakSelection {[ "idx_max" := VIdx idx_maxs; "win_pre" := win_pre;
                       "win_post" := win_post ]} signal;
    if decide (length idxs_start = 0) then
      _ ← warn "Unable to detect the start of the peaks"; mret (VFloat nan)
    else
      durations ← _Durations {[ "starts" := VIdx idxs_start; "stops" := VIdx idxs_stop ]} signal;
      mret (VFloat (nanmean durations)).

Definition SlopeMin_algorithm (signal : Signal) (params : gmap string value) : Py value :=
  delta ← getitem params "delta";
  pre_max ← getitem params "win_pre";
  post_max ← getitem params "win_post";
  '(idx_maxs, idx_mins, val_maxs, val_mins) ← _PeakDetection {[ "delta" := delta ]} signal;
  if decide (length idx_maxs = 0) then
    _ ← warn "No peaks found"; mret (VFloat nan)
  else
    '(idxs_start, idxs_stop) ←
      _PeakSelection {[ "idx_max" := VIdx idx_maxs; "pre_max" := pre_max;
                       "post_max" := post_max ]} signal;
    if decide (length idxs_start = 0) then
      _ ← warn "Unable to detect the start of the peaks"; mret (VFloat nan)
    else
      slopes ← _Slopes {[ "starts" := VIdx idxs_start; "peaks" := VIdx idx_maxs ]} signal;
      r ← nanmin slopes; mret (VFloat r).

Definition SlopeMax_algorithm (signal : Signal) (params : gmap string value) : Py value :=
  delta ← getitem params "delta";
  pre_max ← getitem params "pre_max";
  post_max ← getitem params "post_max";
  '(idx_maxs, idx_mins, val_maxs, val_mins) ← _PeakDetection {[ "delta" := delta ]} signal;
  if decide (length idx_maxs = 0) then
    _ ← warn "No peaks found"; mret (VFloat nan)
  else
    '(idxs_start, idxs_stop) ←
      _PeakSelection {[ "idx_max" := VIdx idx_maxs; "pre_max" := pre_max;
                       "post_max" := post_max ]} signal;
    if decide (length idxs_start = 0) then
      _ ← warn "Unable to detect the start of the peaks"; mret (VFloat nan)
    else
      slopes ← _Slopes {[ "starts" := VIdx idxs_start; "peaks" := VIdx idx_maxs ]} signal;
      r ← nanmax slopes; mret (VFloat r).

Definition SlopeMean_algorithm (signal : Signal) (params : gmap string value) : Py value :=
  delta ← getitem params "delta";
  pre_max ← getitem params "pre_max";
  post_max ← getitem params "post_max";
  '(idx_maxs, idx_mins, val_maxs, val_mins) ← _PeakDetection {[ "delta" := delta ]} signal;
  if decide (length idx_maxs = 0) then
    _ ← warn "No peaks found"; mret (VFloat nan)
  else
    '(idxs_start, idxs_stop) ←
      _PeakSelection {[ "idx_max" := VIdx idx_maxs; "pre_max" := pre_max;
                       "post_max" := post_max ]} signal;
    if decide (length idxs_start = 0) then
      _ ← warn "Unable to detect the start of the peaks"; mret (VFloat nan)
    else
      slopes ← _Slopes {[ "starts" := VIdx idxs_start; "peaks" := VIdx idx_maxs ]} signal;
      mret (VFloat (nanmean slopes)).

(** *** The nine indicators *)

Inductive kind :=
| PeaksMax | PeaksMin | PeaksMean | PeaksNum
| DurationMin | DurationMax | DurationMean
| SlopeMin | SlopeMax | SlopeMean.

Definition amplitude_group (k : kind) : bool :=
  match k with PeaksMax | PeaksMin | PeaksMean | PeaksNum => true | _ => false end.

Definition params_descriptors (k : kind) : list (string * ParameterDescriptor) :=
  if amplitude_group k then Peaks_params_descriptors
  else PeaksInterval_params_descriptors.

Definition init (k : kind) (kwargs : gmap string value) : Py (gmap string value) :=
  if amplitude_group k then Peaks_init kwargs else PeaksInterval_init kwargs.

Definition algorithm (k : kind) : Signal → gmap string value → Py value :=
  match k with
  | PeaksMax => PeaksMax_algorithm
  | PeaksMin => PeaksMin_algorithm
  | PeaksMean => PeaksMean_algorithm
  | PeaksNum => PeaksNum_algorithm
  | DurationMin => DurationMin_algorithm
  | DurationMax => DurationMax_algorithm
  | DurationMean => DurationMean_algorithm
  | SlopeMin => SlopeMin_algorithm
  | SlopeMax => SlopeMax_algorithm
  | SlopeMean => SlopeMean_algorithm
  end.

(** A constructed indicator: its kind and its resolved parameters. *)
Record Indicator := mkIndicator { ind_kind : kind; ind_params : gmap string value }.

Definition construct (k : kind) (kwargs : gmap string value) : Py Indicator :=
  params ← init k kwargs;
  mret (mkIndicator k params).

(** Modelled from the spec: [BaseIndicator.Indicator.__call__] is not among
    the sources.  Section 4.2, [compute(signal)] for a signal that is not in
    the cache: invoke [algorithm(signal, resolved_params)] and return its
    result. *)
Definition compute (ind : Indicator) (signal : Signal) : Py value :=
  algorithm (ind_kind ind) signal (ind_params ind).

(** Construct an indicator and apply it to a signal. *)
Definition run (k : kind) (kwargs : gmap string value) (signal : Signal) : Py value :=
  ind ← construct k kwargs;
  compute ind signal.

End Indicators.

(** *** The tools of the spec *)

(** Modelled from the spec: the tools of [tools.Tools] are not among the
    sources.  They are built from keyword arguments like the indicators
    (section 4.1): an argument that is absent or of the wrong type is a
    ParameterError. *)
Definition float_arg (kwargs : gmap string value) (name : string) : Py F :=
  match kwargs !! name with
  | Some (VFloat x) => mret x
  | Some (VInt n) => mret (of_Z n)
  | _ => raise (ParameterError name)
  end.

(** Modelled from the spec: as [float_arg], for an argument that is a
    sequence of sample indices (sections 4.4 to 4.6). *)
Definition indices_arg (kwargs : gmap string value) (name : string) : Py (list nat) :=
  match kwargs !! name with
  | Some (VIdx l) => mret l
  | _ => raise (ParameterError name)
  end.

(** Modelled from the spec: [tools.Tools.PeakDetection] is not among the
    sources.  Section 4.3, the state of the scan: [running_min],
    [running_max], their sample positions, [seeking_max], and the four output
    sequences. *)
Record scan := mkScan {
  running_min : F;
  running_min_pos : nat;
  running_max : F;
  running_max_pos : nat;
  seeking_max : bool;
  idx_maxs : list nat;
  idx_mins : list nat;
  val_maxs : list F;
  val_mins : list F
}.

(** Modelled from the spec: section 4.3, for each sample [v] at index [i]:
    update [running_max] if [v > running_max], [running_min] if
    [v < running_min]. *)
Definition track (st : scan) (i : nat) (v : F) : scan :=
  let '(mx, mxp) := if flt (running_max st) v then (v, i)
                    else (running_max st, running_max_pos st) in
  let '(mn, mnp) := if flt v (running_min st) then (v, i)
                    else (running_min st, running_min_pos st) in
  mkScan mn mnp mx mxp (seeking_max st)
         (idx_maxs st) (idx_mins st) (val_maxs st) (val_mins st).

(** Modelled from the spec: section 4.3, one sample of the scan.  If
    [seeking_max] and [v < running_max − delta], emit a maximum, reset the
    running minimum to the current sample and seek a minimum; else if not
    [seeking_max] and [v > running_min + delta], emit a minimum, reset the
    running maximum to the current sample and seek a maximum. *)
Definition scan_step (delta : F) (st : scan) (i : nat) (v : F) : scan :=
  let st := track st i v in
  if seeking_max st then
    if flt v (fsub (running_max st) delta) then
      mkScan v i (running_max st) (running_max_pos st) false
             (idx_maxs st ++ [running_max_pos st]) (idx_mins st)
             (val_maxs st ++ [running_max st]) (val_mins st)
    else st
  else
    if flt (fadd (running_min st) delta) v then
      mkScan (running_min st) (running_min_pos st) v i true
             (idx_maxs st) (idx_mins st ++ [running_min_pos st])
             (val_maxs st) (val_mins st ++ [running_min st])
    else st.

(** Modelled from the spec: section 4.3, the single left-to-right scan, from
    index [i] on. *)
Fixpoint scan_from (delta : F) (st : scan) (i : nat) (l : list F) : scan :=
  match l with
  | [] => st
  | v :: l' => scan_from delta (scan_step delta st i v) (S i) l'
  end.

(** Modelled from the spec: section 4.3, the scan of a whole signal with
    [seeking_max] initially true.  The spec leaves the initial running extrema
    open; they start at the first sample, which is what any start below and
    above every sample gives after the first update. *)
Definition peak_scan (delta : F) (l : list F) : PeakSet :=
  match l with
  | [] => ([], [], [], [])
  | v0 :: _ =>
      let st := scan_from delta (mkScan v0 0 v0 0 true [] [] [] []) 0 l in
      (idx_maxs st, idx_mins st, val_maxs st, val_mins st)
  end.

(** Modelled from the spec: [tools.Tools.PeakDetection] is not among the
    sources.  Section 4.3: validated [delta > 0]; [delta ≤ 0] is a
    ParameterError and no scan is performed. *)
Definition PeakDetection (kwargs : gmap string value) (signal : Signal) : Py PeakSet :=
  delta ← float_arg kwargs "delta";
  if positive delta then mret (peak_scan delta (samples signal))
  else raise (ParameterError "delta").

(** Modelled from the spec: [signal[i]], the amplitude at a sample index
    (section 4.6). *)
Definition sample_at (signal : Signal) (i : nat) : Py F :=
  match samples signal !! i with
  | Some v => mret v
  | None => raise (ValueError "index out of bounds")
  end.

(** Modelled from the spec: the time of sample [i] under the signal's
    uniform sampling rate (section 3). *)
Definition time_at (signal : Signal) (i : nat) : F :=
  fdiv (of_Z (Z.of_nat i)) (fsamp signal).

(** Modelled from the spec: section 4.4, a time span converted to a sample
    count via the signal's sampling rate, [int(span * fsamp)]. *)
Definition to_samples (signal : Signal) (span : F) : Py nat :=
  match to_int (fmul span (fsamp signal)) with
  | Some n => mret (Z.to_nat n)
  | None => raise (ValueError "cannot convert float NaN to integer")
  end.

(** Modelled from the spec: section 4.4, the walk from the peak to the
    nearest trough: the number of samples over which the amplitude keeps
    falling, along [l] from a sample of amplitude [v]. *)
Fixpoint descent (v : F) (l : list F) : nat :=
  match l with
  | [] => 0
  | x :: l' => if flt x v then S (descent x l') else 0
  end.

(** Modelled from the spec: [tools.Tools.PeakSelection] is not among the
    sources.  Section 4.4, for one peak index [p]: the start is searched in
    [[p − pre, p]] clipped to [[0, p]], the stop in [[p, p + post]] clipped to
    [[p, n − 1]]; the boundary is the nearest trough on that side, reached by
    walking down from the peak until the amplitude stops falling or the
    window ends.  A peak with a degenerate window or without a trough is
    dropped. *)
Definition select_peak (l : list F) (pre post p : nat) : option (nat * nat) :=
  v ← l !! p;
  let lo := p - pre in
  let hi := (p + post) `min` (length l - 1) in
  let down_left := descent v (reverse (take (p - lo) (drop lo l))) in
  let down_right := descent v (take (hi - p) (drop (S p) l)) in
  if decide (down_left = 0 ∨ down_right = 0) then None
  else Some (p - down_left, p + down_right).

(** Modelled from the spec: [tools.Tools.PeakSelection] is not among the
    sources.  Section 4.4: the intervals of the peaks that are not dropped,
    as the sequences [idxs_start] and [idxs_stop]. *)
Definition PeakSelection (kwargs : gmap string value) (signal : Signal)
    : Py (list nat * list nat) :=
  idx_max ← indices_arg kwargs "idx_max";
  pre_max ← float_arg kwargs "pre_max";
  post_max ← float_arg kwargs "post_max";
  pre ← to_samples signal pre_max;
  post ← to_samples signal post_max;
  let intervals := omap (select_peak (samples signal) pre post) idx_max in
  mret (intervals.*1, intervals.*2).

(** Modelled from the spec: [tools.Tools.Durations] is not among the sources.
    Section 4.5: [stop_time − start_time] for each pair, in order; NaN where
    the stop precedes the start. *)
Definition Durations (kwargs : gmap string value) (signal : Signal) : Py (list F) :=
  starts ← indices_arg kwargs "starts";
  stops ← indices_arg kwargs "stops";
  mret (zip_with (λ start stop,
                    let t0 := time_at signal start in
                    let t1 := time_at signal stop in
                    if flt t1 t0 then nan else fsub t1 t0) starts stops).

(** Modelled from the spec: [tools.Tools.Slopes] is not among the sources.
    Section 4.6: [(amplitude[peak] − amplitude[start]) / (time[peak] −
    time[start])]; NaN where the time difference is zero. *)
Definition slope (signal : Signal) (pair : nat * nat) : Py F :=
  let '(start, peak) := pair in
  a0 ← sample_at signal start;
  a1 ← sample_at signal peak;
  let dt := fsub (time_at signal peak) (time_at signal start) in
  if flt dt (of_Z 0) || flt (of_Z 0) dt then mret (fdiv (fsub a1 a0) dt)
  else mret nan.

(** Modelled from the spec: [tools.Tools.Slopes] is not among the sources.
    Section 4.6: one slope for each start and the peak at the same position
    of the two sequences, in order. *)
Definition Slopes (kwargs : gmap string value) (signal : Signal) : Py (list F) :=
  starts ← indices_arg kwargs "starts";
  peaks ← indices_arg kwargs "peaks";
  mapM (slope signal) (zip starts peaks).

(** The tools of the spec, as the indicators import them. *)
#[global] Instance spec_tools : Tools := {|
  _PeakDetection := PeakDetection;
  _PeakSelection := PeakSelection;
  _Durations := Durations;
  _Slopes := Slopes
|}.

(** *** Predicates on the scan and on the amplitude reductions *)

(** The two index sequences interleave: the k-th maximum lies before the k-th
    minimum, which lies before the (k+1)-th maximum. *)
Definition interleaved (ms ns : list nat) : Prop :=
  (∀ k m n, ms !! k = Some m → ns !! k = Some n → m < n) ∧
  (∀ k n m, ns !! k = Some n → ms !! S k = Some m → n < m).

(** The amplitude sequences run parallel to the index sequences. *)
Definition parallel (st : scan) : Prop :=
  length (val_maxs st) = length (idx_maxs st) ∧
  length (val_mins st) = length (idx_mins st).

(** The invariant of the scan, on the state before sample [i] is read: the
    indices emitted so far lie below the position of the running extremum
    that is sought next. *)
Record scan_inv (st : scan) (i : nat) : Prop := {
  inv_max_pos : running_max_pos st < i;
  inv_min_pos : running_min_pos st < i;
  inv_count : length (idx_maxs st)
              = (if seeking_max st then 0 else 1) + length (idx_mins st);
  inv_bound : Forall (λ j, j < if seeking_max st then running_max_pos st
                               else running_min_pos st)
                     (idx_maxs st ++ idx_mins st);
  inv_sorted_maxs : StronglySorted lt (idx_maxs st);
  inv_sorted_mins : StronglySorted lt (idx_mins st);
  inv_interleaved : interleaved (idx_maxs st) (idx_mins st);
  inv_numbers : Forall (λ x, isnan x = false) (val_maxs st)
}.

(** What each amplitude indicator returns once a maximum is detected. *)
Definition amplitude_reduce (k : kind) (ims : list nat) (vms : list F) : Py value :=
  match k with
  | PeaksMax => r ← nanmax vms; mret (VFloat r)
  | PeaksMin => r ← nanmin vms; mret (VFloat r)
  | PeaksMean => mret (VFloat (nanmean vms))
  | _ => mret (VInt (Z.of_nat (length ims)))
  end.

End Pyphysio.

Arguments value F : clear implicits.
Arguments Signal F : clear implicits.
Arguments Indicator F : clear implicits.
Arguments ParameterDescriptor F : clear implicits.
Arguments scan F : clear implicits.
Arguments PeakSet F : clear implicits.
Arguments Tools F : clear implicits.

(* ===================================================================== *)
(** ** The pyHRV package: module-level statements and imports *)

Module PyHRV.

(** A module namespace: the names bound so far, and [__all__] once it is
    assigned. *)
Record namespace := mkNamespace { bound : list string; dunder_all : option (list string) }.

Definition empty_namespace : namespace := mkNamespace [] None.

Definition bind (name : string) (ns : namespace) : namespace :=
  mkNamespace (name :: bound ns) (dunder_all ns).

Definition defines (ns : namespace) (name : string) : bool :=
  bool_decide (name ∈ bound ns).

(** The module-level statements that occur in the three files. *)
Inductive stmt :=
| Import (module alias : string)              (* import module [as alias] *)
| FromImport (module : string) (names : list string)
                                              (* from module import a, b *)
| FromImportAs (module name alias : string)   (* from module import name as alias *)
| FromImportStar (module : string)            (* from module import * *)
| AssignAll (names : list string)             (* __all__ = [...] *)
| ExtendAll (module : string)                 (* __all__.extend(module.__all__) *)
| Assign (name : string)                      (* name = constant *)
| Def (name : string)                         (* def name(...) / class name(...) *)
| Del (name : string).                        (* del name *)

(** The names a star import copies: [__all__] when the module defines it,
    the names without a leading underscore otherwise. *)
Definition is_private (name : string) : bool := String.prefix "_" name.

Definition star_names (m : namespace) : list string :=
  match dunder_all m with
  | Some names => names
  | None => filter (λ n, is_private n = false) (bound m)
  end.

(** Copy [names] out of module [m] one by one; a name that [m] does not
    define ends the statement with [missing name]. *)
Fixpoint copy_names (missing : string → exn) (m : namespace) (names : list string)
    (ns : namespace) : outcome namespace :=
  match names with
  | [] => Return ns
  | n :: rest =>
      if defines m n then copy_names missing m rest (bind n ns)
      else Raise (missing n)
  end.

Section Exec.
(** [load module] imports a module: its namespace, or the exception its
    import ends with. *)
Variable load : string → outcome namespace.

Definition exec_stmt (s : stmt) (ns : namespace) : outcome namespace :=
  match s with
  | Import module alias =>
      match load module with
      | Return _ => Return (bind alias ns)
      | Raise e => Raise e
      end
  | FromImport module names =>
      match load module with
      | Return m => copy_names ImportError m names ns
      | Raise e => Raise e
      end
  | FromImportAs module name alias =>
      match load module with
      | Return m => if defines m name then Return (bind alias ns)
                    else Raise (ImportError name)
      | Raise e => Raise e
      end
  | FromImportStar module =>
      match load module with
      | Return m => copy_names AttributeError m (star_names m) ns
      | Raise e => Raise e
      end
  | AssignAll names => Return (mkNamespace ("__all__" :: bound ns) (Some names))
  | ExtendAll module =>
      match load module, dunder_all ns with
      | Raise e, _ => Raise e
      | Return m, Some mine =>
          match dunder_all m with
          | Some theirs => Return (mkNamespace (bound ns) (Some (mine ++ theirs)))
          | None => Raise (AttributeError "__all__")
          end
      | Return _, None => Raise (AttributeError "__all__")
      end
  | Assign name | Def name => Return (bind name ns)
  | Del name =>
      if defines ns name
      then Return (mkNamespace (filter (λ n, n ≠ name) (bound ns)) (dunder_all ns))
      else Raise (NameError name)
  end.

Fixpoint exec (prog : list stmt) (ns : namespace) : outcome namespace :=
  match prog with
  | [] => Return ns
  | s :: rest =>
      match exec_stmt s ns with
      | Return ns' => exec rest ns'
      | Raise e => Raise e
      end
  end.

End Exec.

(** [pyHRV/Files.py].  The default arguments of its functions read the
    settings module, which is not among the sources; they are taken to
    evaluate. *)
Definition Files_py : list stmt :=
  [ Import "numpy" "np";
    Import "pandas" "pd";
    FromImport "pyHRV.DataSeries" ["DataSeries"];
    FromImport "pyHRV.utility" ["peak_detection"];
    FromImportAs "pyHRV.PyHRVSettings" "PyHRVDefaultSettings" "Sett";
    AssignAll ["load_rr_data_series"; "save_rr_data_series"];
    Def "load_data_series";
    Def "save_data_series";
    Def "load_rr_data_series";
    Def "load_rr_from_ecg";
    Def "load_rr_from_bvp" ].

(** [pyHRV/__init__.py] up to its second star import ([import Files] is a
    Python 2 implicit relative import of [pyHRV.Files]). *)
Definition init_before_Files_star : list stmt :=
  [ Assign "__author__";
    Import "pyHRV.Files" "Files";
    Import "pyHRV.Filters" "Filters";
    Import "pyHRV.PyHRVSettings" "PyHRVSettings";
    Import "pyHRV.indexes" "indexes";
    Import "pyHRV.windowing" "windowing";
    Import "pyHRV.DataSeries" "_Ds";
    AssignAll ["Files"; "PyHRVSettings"; "windowing"; "indexes"; "Filters"];
    ExtendAll "pyHRV.DataSeries";
    ExtendAll "pyHRV.Filters";
    ExtendAll "pyHRV.Files";
    ExtendAll "pyHRV.indexes";
    ExtendAll "pyHRV.windowing";
    FromImportStar "pyHRV.DataSeries" ].

Definition init_py : list stmt :=
  init_before_Files_star ++
  [ FromImportStar "pyHRV.Files";
    FromImportStar "pyHRV.PyHRVSettings";
    FromImportStar "pyHRV.indexes";
    FromImportStar "pyHRV.windowing";
    FromImportStar "pyHRV.Filters";
    Del "_Ds" ].

(** [pyHRV/galaxy/GalaxyFilter.py]. *)
Definition GalaxyFilter_py : list stmt :=
  [ FromImport "pyHRV.galaxy.ParamExecClass" ["ParamExecClass"];
    FromImport "pyHRV.Files" ["load_rr"; "save_data_series"];
    FromImport "pyHRV.Filters" ["RRFilters"];
    Assign "__author__";
    Def "GalaxyFilter" ].

Section Environment.
(** The modules that are not among the sources: the namespace each one has
    once imported, or [None] when its import fails. *)
Variable env : string → option namespace.

Definition load_other (module : string) : outcome namespace :=
  match env module with
  | Some m => Return m
  | None => Raise (ImportError module)
  end.

(** Importing a submodule while the package is being initialised. *)
Definition load_submodule (module : string) : outcome namespace :=
  if decide (module = "pyHRV.Files") then exec load_other Files_py empty_namespace
  else load_other module.

(** [import pyHRV]: run the package's [__init__.py]. *)
Definition import_pyHRV : outcome namespace :=
  exec load_submodule init_py empty_namespace.

(** Importing a module of the package from outside imports the package
    first. *)
Definition load_from_outside (module : string) : outcome namespace :=
  match import_pyHRV with
  | Return _ => load_submodule module
  | Raise e => Raise e
  end.

Definition import_GalaxyFilter : outcome namespace :=
  exec load_from_outside GalaxyFilter_py empty_namespace.

End Environment.

(** An environment in which every other module imports and exports what the
    package asks of it. *)
Definition friendly (module : string) : option namespace :=
  Some (mkNamespace ["DataSeries"; "peak_detection"; "PyHRVDefaultSettings";
                     "RRFilters"; "ParamExecClass"] (Some [])).

End PyHRV.

(* ===================================================================== *)
(** ** Loading a column: [pyHRV/Files.py] *)

Module Files.
Import Stdlib.Strings.Ascii.

(** The exceptions a loader can end with. *)
Inductive exception :=
| KeyError (msg : string)
| AssertionError
| ValueError (msg : string)
| IndexError (msg : string)
| IOError (msg : string).

Inductive result (A : Type) :=
| Returns (a : A)
| Raises (e : exception).
Arguments Returns {A} a.
Arguments Raises {A} e.

(** A template that holds neither an opening nor a closing brace: it has no
    replacement field and no escaped brace. *)
Fixpoint brace_free (template : string) : bool :=
  match template with
  | EmptyString => true
  | String c rest => negb (Ascii.eqb c "{"%char || Ascii.eqb c "}"%char) && brace_free rest
  end.

(** [str.format] on positional arguments, for templates whose fields are
    all the automatic field [{}]: text is copied, [{{] and [}}] give one
    brace, [{}] gives the next argument, and arguments that are left over are
    ignored.  A lone brace is a ValueError, a field without an argument an
    IndexError; a field of another form is not covered and is given as a
    ValueError as well. *)
Fixpoint format_auto (template : string) (args : list string) : result string :=
  match template with
  | EmptyString => Returns EmptyString
  | String c rest =>
      if Ascii.eqb c "{"%char then
        match rest with
        | EmptyString => Raises (ValueError "Single '{' encountered in format string")
        | String c' rest' =>
            if Ascii.eqb c' "{"%char then
              match format_auto rest' args with
              | Returns s => Returns (String "{"%char s)
              | Raises e => Raises e
              end
            else if Ascii.eqb c' "}"%char then
              match args with
              | [] => Raises (IndexError "tuple index out of range")
              | a :: args' =>
                  match format_auto rest' args' with
                  | Returns s => Returns (a +:+ s)
                  | Raises e => Raises e
                  end
              end
            else Raises (ValueError "field")
        end
      else if Ascii.eqb c "}"%char then
        match rest with
        | EmptyString => Raises (ValueError "Single '}' encountered in format string")
        | String c' rest' =>
            if Ascii.eqb c' "}"%char then
              match format_auto rest' args with
              | Returns s => Returns (String "}"%char s)
              | Raises e => Raises e
              end
            else Raises (ValueError "Single '}' encountered in format string")
        end
      else
        match format_auto rest args with
        | Returns s => Returns (String c s)
        | Raises e => Raises e
        end
  end.

Section Loaders.
(** The cells of a csv column and the series a loader builds from them. *)
Context {cell series : Type}.

(** A parsed csv file, [pandas.DataFrame]: its columns by name. *)
Definition DataFrame : Type := gmap string (list cell).

(** [pd.read_csv(path, sep)]. *)
Variable read_csv : string → string → result DataFrame.

(** [str.format], on a template and its positional arguments. *)
Variable format : string → list string → result string.

(** [pyHRV.DataSeries] is not among the sources: [DataSeries(np.array(cells))],
    the assignment [inst.name = column], and [isinstance(inst, pd.Series)]. *)
Variable DataSeries : list cell → result series.
Variable set_name : string → series → series.
Variable is_Series : series → bool.

Definition load_data_series (path column sep : string) : result series :=
  match read_csv path sep with
  | Raises e => Raises e
  | Returns d =>
      match d !! column with                            (* column in d.columns *)
      | Some cells =>
          match DataSeries cells with
          | Raises e => Raises e
          | Returns inst =>
              let inst := set_name column inst in
              if is_Series inst then Returns inst else Raises AssertionError
          end
      | None =>
          match format "COLUMN_NAME: Column %s not found in file %s" [column; path] with
          | Returns msg => Raises (KeyError msg)
          | Raises e => Raises e
          end
      end
  end.

Definition load_rr_data_series (path column sep : string) : result series :=
  load_data_series path column sep.

End Loaders.

(** A file with the single column [IBI]. *)
Definition ibi_file (path sep : string) : result (@DataFrame Z) :=
  Returns {[ "IBI" := [800; 810; 790]%Z ]}.

End Files.

(* ===================================================================== *)
(** ** Predicates of the claims *)

(** The entries of an exact array that are not NaN, and their statistics. *)
Definition to_Q (x : exact) : option Q :=
  match x with Real q => Some q | NaN => None end.

(** The entries of an array that are not NaN. *)
Definition reals (a : list exact) : list Q := omap to_Q a.

Definition Qsum (l : list Q) : Q := foldr Qplus 0%Q l.

Definition Qmean (l : list Q) : Q := (Qsum l / inject_Z (Z.of_nat (length l)))%Q.

Definition is_maximum (m : Q) (l : list Q) : Prop := m ∈ l ∧ ∀ q, q ∈ l → (q <= m)%Q.

Definition is_minimum (m : Q) (l : list Q) : Prop := m ∈ l ∧ ∀ q, q ∈ l → (m <= q)%Q.

(** [x <= y] as numpy compares two numbers: false when either side is NaN. *)
Class Leq (F : Type) := fle : F → F → bool.

Definition exact_leb (x y : exact) : bool :=
  match x, y with Real a, Real b => Qle_bool a b | _, _ => false end.

#[global] Instance exact_leq : Leq exact := exact_leb.

#[global] Instance binary64_leq : Leq float := PrimFloat.leb.

(** The laws of comparison on which [fmax], [fmin] and the mean of an array
    of NaN rest.  Exact numbers and IEEE-754 doubles both keep them. *)
Record OrderLaws (F : Type) `{!Number F, !Leq F} : Prop := {
  nan_isnan : isnan (nan : F) = true;
  flt_numbers : ∀ x y : F, flt x y = true → isnan x = false ∧ isnan y = false;
  flt_fle : ∀ x y : F, flt x y = true → fle x y = true;
  fle_refl : ∀ x : F, isnan x = false → fle x x = true;
  fle_total : ∀ x y : F,
    isnan x = false → isnan y = false → flt x y = false → fle y x = true;
  fle_trans : ∀ x y z : F, fle x y = true → fle y z = true → fle x z = true;
  zero_plus_zero : fadd (of_Z 0) (of_Z 0) = (of_Z 0 : F);
  zero_over_zero : isnan (fdiv (of_Z 0) (of_Z 0) : F) = true
}.

(** The entries of an array that are not NaN, [a[~numpy.isnan(a)]]. *)
Definition numbers {F} `{!Number F} (a : list F) : list F :=
  filter (λ x, isnan x = false) a.

(** [numpy.mean] of an array, summed left to right as [nansum] is. *)
Definition mean {F} `{!Number F} (a : list F) : F :=
  fdiv (fold_left fadd a (of_Z 0)) (of_Z (Z.of_nat (length a))).

Definition is_greatest {F} `{!Leq F} (m : F) (l : list F) : Prop :=
  m ∈ l ∧ ∀ x, x ∈ l → fle x m = true.

Definition is_least {F} `{!Leq F} (m : F) (l : list F) : Prop :=
  m ∈ l ∧ ∀ x, x ∈ l → fle m x = true.

(** Bits of a double that is neither NaN nor infinite. *)
Definition sf_finite (x : spec_float) : bool :=
  match x with S754_zero _ | S754_finite _ _ _ => true | _ => false end.

(** A double that is neither NaN nor infinite. *)
Definition finite (x : float) : bool := sf_finite (Prim2SF x).

(** Two doubles that are the same number: equal, or zeros that differ in
    their sign at most. *)
Definition same_double (x y : float) : Prop :=
  x = y ∨ ∃ s s' : bool, Prim2SF x = S754_zero s ∧ Prim2SF y = S754_zero s'.

(* ===================================================================== *)
(** ** The shape of the nine algorithms *)

Section AlgorithmShape.
Context {F : Type} `{!Number F}.

Definition duration_group (k : kind) : bool :=
  match k with DurationMin | DurationMax | DurationMean => true | _ => false end.

Definition slope_group (k : kind) : bool :=
  match k with SlopeMin | SlopeMax | SlopeMean => true | _ => false end.

(** The keys of [params] that each [algorithm] reads, in the order in which
    it reads them. *)
Definition keys_read (k : kind) : list string :=
  match k with
  | PeaksMax | PeaksMin | PeaksMean | PeaksNum => ["delta"]
  | DurationMin | DurationMax | DurationMean | SlopeMin =>
      ["delta"; "win_pre"; "win_post"]
  | SlopeMax | SlopeMean => ["delta"; "pre_max"; "post_max"]
  end.

(** The first of [keys] that [params] lacks. *)
Fixpoint first_missing (params : gmap string (value F)) (keys : list string)
    : option string :=
  match keys with
  | [] => None
  | key :: rest =>
      match params !! key with
      | Some _ => first_missing params rest
      | None => Some key
      end
  end.

(** The two keys of [params] from which an interval indicator reads its
    windows. *)
Definition window_keys (k : kind) : string * string :=
  match k with
  | SlopeMax | SlopeMean => ("pre_max", "post_max")
  | _ => ("win_pre", "win_post")
  end.

(** The keyword names under which an interval indicator hands the windows to
    [_PeakSelection]. *)
Definition selector_keywords (k : kind) : string * string :=
  if duration_group k then ("win_pre", "win_post") else ("pre_max", "post_max").

(** The tool an interval indicator applies to the selected intervals:
    [_Durations(starts=idxs_start, stops=idxs_stop)] or
    [_Slopes(starts=idxs_start, peaks=idx_maxs)]. *)
Definition measure `{!Tools F} (k : kind) (idxs_start idxs_stop idx_maxs : list nat)
    (signal : Signal F) : Py (list F) :=
  if duration_group k
  then _Durations {[ "starts" := VIdx idxs_start; "stops" := VIdx idxs_stop ]} signal
  else _Slopes {[ "starts" := VIdx idxs_start; "peaks" := VIdx idx_maxs ]} signal.

(** What each interval indicator returns once it holds its durations or
    slopes: their [nanmin], [nanmax] or [nanmean]. *)
Definition interval_reduce (k : kind) (xs : list F) : Py (value F) :=
  match k with
  | DurationMin | SlopeMin => r ← nanmin xs; mret (VFloat r)
  | DurationMax | SlopeMax => r ← nanmax xs; mret (VFloat r)
  | _ => mret (VFloat (nanmean xs))
  end.

(** The tools that an indicator calls. *)
Definition same_tools_for (k : kind) (T1 T2 : Tools F) : Prop :=
  (∀ kwargs signal, @_PeakDetection F T1 kwargs signal = @_PeakDetection F T2 kwargs signal) ∧
  (amplitude_group k = false →
   ∀ kwargs signal, @_PeakSelection F T1 kwargs signal = @_PeakSelection F T2 kwargs signal) ∧
  (duration_group k = true →
   ∀ kwargs signal, @_Durations F T1 kwargs signal = @_Durations F T2 kwargs signal) ∧
  (slope_group k = true →
   ∀ kwargs signal, @_Slopes F T1 kwargs signal = @_Slopes F T2 kwargs signal).

End AlgorithmShape.

(* ===================================================================== *)
(** ** Concrete signals *)

(** Closed statements about [run], [compute] or an [_algorithm] on these
    signals use the tools of the spec, [spec_tools]. *)

Definition exact_signal (l : list Z) : Signal exact :=
  mkSignal (map (λ z, Real (inject_Z z)) l) (Real 1).

(** Scenario 1 of the spec. *)
Definition scenario1 : Signal exact := exact_signal [0; 2; 0; 3; 0; 5; 0; 1; 0]%Z.

(** Scenario 2 of the spec, at any sampling frequency. *)
Definition flat (fs : exact) : Signal exact :=
  mkSignal [Real 1; Real 1; Real 1; Real 1; Real 1] fs.

(** A signal whose first peak sits on the first sample. *)
Definition leading_peak : Signal exact := exact_signal [5; 0; 3; 0; 1]%Z.

Definition delta_kw (d : Q) : gmap string (value exact) :=
  {[ "delta" := VFloat (Real d) ]}.

Definition interval_kw {F} (d pre post : F) : gmap string (value F) :=
  {[ "delta" := VFloat d; "pre_max" := VFloat pre; "post_max" := VFloat post ]}.

(** Three peaks of amplitude 0.1 (the double nearest to it) over a zero
    baseline, in binary64. *)
Definition tenths : Signal float :=
  mkSignal [0; 0x1.999999999999ap-4; 0; 0x1.999999999999ap-4; 0;
            0x1.999999999999ap-4; 0]%float 1%float.

(** Two peaks of the largest finite double over a zero baseline. *)
Definition huge : Signal float :=
  mkSignal [0; 0x1.fffffffffffffp1023; 0; 0x1.fffffffffffffp1023; 0]%float 1%float.

(** The tools of the spec behind a detector that reports the peak set
    [peaks] for every signal. *)
Definition tools_reporting {F} `{!Number F} (peaks : PeakSet F) : Tools F := {|
  _PeakDetection := λ _ _, mret peaks;
  _PeakSelection := PeakSelection;
  _Durations := Durations;
  _Slopes := Slopes
|}.

(** [win_tools] on doubles. *)
Definition win_tools64 : Tools float := {|
  _PeakDetection := PeakDetection;
  _PeakSelection := λ kwargs signal,
    idx_max ← getitem kwargs "idx_max";
    win_pre ← getitem kwargs "win_pre";
    win_post ← getitem kwargs "win_post";
    PeakSelection {[ "idx_max" := idx_max; "pre_max" := win_pre;
                     "post_max" := win_post ]} signal;
  _Durations := Durations;
  _Slopes := Slopes
|}.

(** [window_kw] on doubles. *)
Definition window_kw64 (d pre post : float) : gmap string (value float) :=
  {[ "delta" := VFloat d;
     "pre_max" := VFloat pre; "post_max" := VFloat post;
     "win_pre" := VFloat pre; "win_post" := VFloat post ]}.

(** The tools of the spec behind a selector whose windows are named
    [win_pre] and [win_post], the keywords the duration indicators pass. *)
Definition win_tools : Tools exact := {|
  _PeakDetection := PeakDetection;
  _PeakSelection := λ kwargs signal,
    idx_max ← getitem kwargs "idx_max";
    win_pre ← getitem kwargs "win_pre";
    win_post ← getitem kwargs "win_post";
    PeakSelection {[ "idx_max" := idx_max; "pre_max" := win_pre;
                     "post_max" := win_post ]} signal;
  _Durations := Durations;
  _Slopes := Slopes
|}.

(** A peak that falls off a plateau: the peak at index 1 has no trough on
    its right within one sample, and the selector of the spec drops it. *)
Definition plateau : Signal exact := exact_signal [0; 5; 5; 0]%Z.

(** A parameter map that holds the windows under both pairs of names. *)
Definition window_kw (d pre post : Q) : gmap string (value exact) :=
  {[ "delta" := VFloat (Real d);
     "pre_max" := VFloat (Real pre); "post_max" := VFloat (Real post);
     "win_pre" := VFloat (Real pre); "win_post" := VFloat (Real post) ]}.

(* ===================================================================== *)
(** ** Invariants of the peak scan *)

Lemma interleaved_snoc_max ms ns p :
  length ms = length ns → Forall (λ j, j < p) ns →
  interleaved ms ns → interleaved (ms ++ [p]) ns.
Proof.
  intros Hlen Hb [H1 H2]. split.
  - intros k m n Hm Hn. apply (H1 k); [|done].
    apply lookup_lt_Some in Hn. rewrite lookup_app_l in Hm by lia. done.
  - intros k n m Hn Hm.
    destruct (decide (S k < length ms)) as [Hk|Hk].
    + rewrite lookup_app_l in Hm by done. by apply (H2 k).
    + rewrite Forall_forall in Hb. apply list_elem_of_lookup_2 in Hn as Hin.
      apply lookup_lt_Some in Hn.
      rewrite lookup_app_r in Hm by lia.
      apply list_lookup_singleton_Some in Hm as [_ <-]. by apply Hb.
Qed.

Lemma interleaved_snoc_min ms ns q :
  length ms = S (length ns) → Forall (λ j, j < q) ms →
  interleaved ms ns → interleaved ms (ns ++ [q]).
Proof.
  intros Hlen Hb [H1 H2]. split.
  - intros k m n Hm Hn.
    destruct (decide (k < length ns)) as [Hk|Hk].
    + rewrite lookup_app_l in Hn by done. by apply (H1 k).
    + rewrite Forall_forall in Hb. apply list_elem_of_lookup_2 in Hm as Hin.
      rewrite lookup_app_r in Hn by lia.
      apply list_lookup_singleton_Some in Hn as [_ <-]. by apply Hb.
  - intros k n m Hn Hm. apply (H2 k); [|done].
    apply lookup_lt_Some in Hm. rewrite lookup_app_l in Hn by lia. done.
Qed.

Lemma StronglySorted_snoc (l : list nat) (x : nat) :
  StronglySorted lt l → Forall (λ j, j < x) l → StronglySorted lt (l ++ [x]).
Proof.
  intros Hs Hb. apply StronglySorted_app_2; [|done|repeat constructor].
  intros a b Ha Hb'. apply list_elem_of_singleton in Hb' as ->.
  rewrite Forall_forall in Hb. by apply Hb.
Qed.

(** The amplitude sequences run parallel to the index sequences, whatever
    the numbers are. *)
Section ScanParallel.
Context {F : Type} `{!Number F}.

Lemma scan_step_parallel (delta : F) st i v :
  parallel st → parallel (scan_step delta st i v).
Proof.
  intros [Hx Hn]. unfold scan_step, track.
  destruct (flt (running_max st) v), (flt v (running_min st)); simpl;
    destruct (seeking_max st); simpl;
    repeat match goal with |- context [if ?c then _ else _] => destruct c end;
    split; simpl; rewrite ?length_app; simpl; lia.
Qed.

Lemma scan_from_parallel (delta : F) l st i :
  parallel st → parallel (scan_from delta st i l).
Proof.
  revert st i. induction l as [|v l IH]; intros st i Hp; simpl; [done|].
  apply IH. by apply scan_step_parallel.
Qed.

Lemma peak_scan_parallel (delta : F) l ims ins vms vns :
  peak_scan delta l = (ims, ins, vms, vns) →
  length vms = length ims ∧ length vns = length ins.
Proof.
  destruct l as [|v0 l]; unfold peak_scan.
  - by intros [= <- <- <- <-].
  - intros [= <- <- <- <-]. apply scan_from_parallel, scan_step_parallel. by split.
Qed.

End ScanParallel.

Section ScanInvariant.
Context {F : Type} `{!Number F}.
Variable delta : F.

(** What the scan needs of the order and of [delta > 0]. *)
Hypothesis lt_irrefl : ∀ x, flt x x = false.
Hypothesis lt_sub_self : ∀ x, flt x (fsub x delta) = false.
Hypothesis lt_add_self : ∀ x, flt (fadd x delta) x = false.
Hypothesis lt_sub_number : ∀ x m, flt x (fsub m delta) = true → isnan m = false.

Lemma Forall_lt_weaken (l : list nat) (a b : nat) :
  a ≤ b → Forall (λ j, j < a) l → Forall (λ j, j < b) l.
Proof. intros Hab Hl. eapply Forall_impl; [done|]. intros; simpl in *; lia. Qed.

Lemma scan_step_inv st i v :
  scan_inv st i → scan_inv (scan_step delta st i v) (S i).
Proof.
  intros [Hmx Hmn Hc Hb Hsx Hsn Hi Hnum].
  destruct st as [mn mnp mx mxp seek ims ins vms vns]; simpl in *.
  unfold scan_step, track; simpl.
  destruct (flt mx v) eqn:Eup, (flt v mn) eqn:Edn; simpl;
    destruct seek; simpl in *;
    repeat match goal with
    | |- context [flt v (fsub v delta)] => rewrite lt_sub_self
    | |- context [flt (fadd v delta) v] => rewrite lt_add_self
    | |- scan_inv (if ?c then _ else _) _ => let E := fresh "Eemit" in destruct c eqn:E
    end;
    apply Forall_app in Hb as [Hbx Hbn];
    constructor; simpl;
    try done; try lia;
    repeat match goal with
    | |- Forall _ (_ ++ _) => apply Forall_app; split
    | |- Forall _ [_] => apply Forall_singleton
    | |- StronglySorted lt (_ ++ [_]) => apply StronglySorted_snoc
    | |- interleaved (_ ++ [_]) _ => apply interleaved_snoc_max
    | |- interleaved _ (_ ++ [_]) => apply interleaved_snoc_min
    | |- length (_ ++ [_]) = _ => rewrite !length_app; simpl
    | |- _ = length (_ ++ [_]) => rewrite !length_app; simpl
    | |- _ = _ + length (_ ++ [_]) => rewrite !length_app; simpl
    | |- isnan _ = false => by eapply lt_sub_number
    | |- Forall (λ j, j < _) _ => (eapply Forall_lt_weaken; [|eassumption]; lia)
    end;
    try done; try lia.
Qed.

Lemma scan_from_inv l st i :
  scan_inv st i → scan_inv (scan_from delta st i l) (i + length l).
Proof.
  revert st i. induction l as [|v l IH]; intros st i Hinv; simpl.
  - by rewrite Nat.add_0_r.
  - rewrite <- Nat.add_succ_comm. apply IH. by apply scan_step_inv.
Qed.

(** A sample equal to both running extrema changes nothing while a maximum
    is sought. *)
Lemma scan_step_same st i v :
  seeking_max st = true → running_max st = v → running_min st = v →
  scan_step delta st i v = st.
Proof.
  destruct st; simpl; intros -> -> ->.
  unfold scan_step, track; simpl. by rewrite !lt_irrefl, lt_sub_self.
Qed.

Lemma scan_first_step v0 :
  scan_step delta (mkScan v0 0 v0 0 true [] [] [] []) 0 v0
  = mkScan v0 0 v0 0 true [] [] [] [].
Proof. by apply scan_step_same. Qed.

Lemma scan_from_flat n v st i :
  seeking_max st = true → running_max st = v → running_min st = v →
  scan_from delta st i (replicate n v) = st.
Proof.
  intros Hs Hx Hn. revert i. induction n as [|n IH]; intros i; simpl; [done|].
  by rewrite scan_step_same.
Qed.

(** A constant signal has no peak. *)
Lemma peak_scan_flat n v : peak_scan delta (replicate n v) = ([], [], [], []).
Proof.
  destruct n as [|n]; simpl; [done|].
  rewrite scan_first_step. by rewrite scan_from_flat.
Qed.

Lemma scan_inv_initial v0 : scan_inv (mkScan v0 0 v0 0 true [] [] [] []) 1.
Proof.
  constructor; simpl; try lia; try done; by constructor.
Qed.

(** The output of the scan on any list of samples. *)
Lemma peak_scan_inv l ims ins vms vns :
  peak_scan delta l = (ims, ins, vms, vns) →
  StronglySorted lt ims ∧ StronglySorted lt ins ∧
  length ins ≤ length ims ≤ S (length ins) ∧
  interleaved ims ins ∧
  Forall (λ x, isnan x = false) vms.
Proof.
  destruct l as [|v0 l]; simpl.
  - intros [= <- <- <- <-]. do 2 (split; [constructor|]).
    split; [simpl; lia|]. split; [|done].
    split; intros k ? ? H; by rewrite lookup_nil in H.
  - rewrite scan_first_step.
    pose proof (scan_from_inv l _ 1 (scan_inv_initial v0)) as Hinv.
    set (st := scan_from _ _ _ _) in *. intros [= <- <- <- <-].
    destruct Hinv as [_ _ Hc _ Hsx Hsn Hi Hnum].
    do 2 (split; [done|]). split; [|done].
    destruct (seeking_max st); simpl in Hc; lia.
Qed.

End ScanInvariant.

(* ===================================================================== *)
(** ** Running the indicators *)

Lemma Py_bind_ret {A B} (a : A) (f : A → Py B) : mret a ≫= f = f a.
Proof. unfold mbind, Py_bind, mret, Py_ret. by destruct (f a). Qed.

Lemma Py_bind_raise {A B} (e : exn) (f : A → Py B) : raise e ≫= f = raise e.
Proof. done. Qed.

Lemma Py_bind_warn {B} (msg : string) (f : unit → Py B) :
  warn msg ≫= f = ((f tt).1, msg :: (f tt).2).
Proof. unfold mbind, Py_bind, warn. by destruct (f tt). Qed.

Lemma Py_bind_return {A B} (a : A) (w : list string) (f : A → Py B) :
  (Return a, w) ≫= f = ((f a).1, w ++ (f a).2).
Proof. unfold mbind, Py_bind. by destruct (f a). Qed.

Ltac py_simpl :=
  repeat first [ rewrite Py_bind_ret | rewrite Py_bind_raise | rewrite Py_bind_warn ];
  simpl.

(** Facts that hold whatever the four tools are. *)
Section Running.
Context {F : Type} `{!Number F, !Tools F}.
Implicit Types (delta : F) (signal : Signal F) (params kwargs : gmap string (value F)).

(** The resolved parameter map of an amplitude-group indicator. *)
Lemma Peaks_init_valid kwargs v delta :
  kwargs !! "delta" = Some v → coerce float_t v = Some delta →
  positive delta = true →
  Peaks_init kwargs = mret {[ "delta" := VFloat delta ]}.
Proof.
  intros Hk Hv Hpos. unfold Peaks_init. rewrite Hk. simpl.
  unfold resolve. rewrite Hk. simpl. simpl in Hv. rewrite Hv, Hpos.
  py_simpl. by rewrite insert_empty.
Qed.

Lemma Peaks_init_invalid kwargs v delta :
  kwargs !! "delta" = Some v → coerce float_t v = Some delta →
  positive delta = false →
  Peaks_init kwargs = raise (ParameterError "delta").
Proof.
  intros Hk Hv Hpos. unfold Peaks_init. rewrite Hk. simpl.
  unfold resolve. rewrite Hk. simpl. simpl in Hv. rewrite Hv, Hpos.
  by py_simpl.
Qed.

(** The resolved parameter map of an interval-group indicator: exactly the
    three declared names. *)
Lemma PeaksInterval_init_valid delta pre_max post_max :
  positive delta = true → positive pre_max = true → positive post_max = true →
  PeaksInterval_init {[ "delta" := VFloat delta; "pre_max" := VFloat pre_max;
                        "post_max" := VFloat post_max ]}
  = mret {[ "delta" := VFloat delta; "pre_max" := VFloat pre_max;
            "post_max" := VFloat post_max ]}.
Proof.
  intros Hd Hpre Hpost. unfold PeaksInterval_init.
  rewrite lookup_insert_eq. simpl. unfold resolve. simpl.
  repeat (rewrite ?lookup_insert_eq, ?lookup_insert_ne, ?lookup_singleton_eq by done;
          simpl).
  rewrite Hd, Hpre, Hpost. py_simpl. by rewrite insert_empty.
Qed.

(** An amplitude indicator on a signal without a detected maximum. *)
Lemma amplitude_algorithm_no_peak k signal params (d : value F) ims ins vms vns w :
  amplitude_group k = true →
  params !! "delta" = Some d →
  _PeakDetection {[ "delta" := d ]} signal = (Return (ims, ins, vms, vns), w) →
  length ims = 0 →
  algorithm k signal params = (Return (VFloat nan), w ++ ["No peak found"]).
Proof.
  intros Hk Hd Hdet Hlen.
  destruct k; try discriminate Hk; simpl;
    unfold PeaksMax_algorithm, PeaksMin_algorithm, PeaksMean_algorithm,
      PeaksNum_algorithm, getitem;
    rewrite Hd; py_simpl; rewrite Hdet, Py_bind_return;
    by rewrite decide_True by done.
Qed.

(** An amplitude indicator on a signal with a detected maximum. *)
Lemma amplitude_algorithm_peaks k signal params (d : value F) ims ins vms vns w :
  amplitude_group k = true →
  params !! "delta" = Some d →
  _PeakDetection {[ "delta" := d ]} signal = (Return (ims, ins, vms, vns), w) →
  length ims ≠ 0 →
  algorithm k signal params
  = ((amplitude_reduce k ims vms).1, w ++ (amplitude_reduce k ims vms).2).
Proof.
  intros Hk Hd Hdet Hlen.
  destruct k; try discriminate Hk; simpl;
    unfold PeaksMax_algorithm, PeaksMin_algorithm, PeaksMean_algorithm,
      PeaksNum_algorithm, getitem;
    rewrite Hd; py_simpl; rewrite Hdet, Py_bind_return;
    by rewrite decide_False by done.
Qed.

Lemma amplitude_run k kwargs v signal delta :
  amplitude_group k = true →
  kwargs !! "delta" = Some v → coerce float_t v = Some delta →
  positive delta = true →
  run k kwargs signal = algorithm k signal {[ "delta" := VFloat delta ]}.
Proof.
  intros Hk Hkw Hv Hpos. unfold run, construct, init. rewrite Hk.
  rewrite (Peaks_init_valid _ _ _ Hkw Hv Hpos). by py_simpl.
Qed.

Lemma interval_run k delta pre_max post_max signal :
  amplitude_group k = false →
  positive delta = true → positive pre_max = true → positive post_max = true →
  let kwargs := {[ "delta" := VFloat delta; "pre_max" := VFloat pre_max;
                   "post_max" := VFloat post_max ]} in
  run k kwargs signal = algorithm k signal kwargs.
Proof.
  intros Hk Hd Hpre Hpost. unfold run, construct, init. rewrite Hk.
  cbv zeta. rewrite PeaksInterval_init_valid by done. by py_simpl.
Qed.

End Running.

(** Facts about the tools of the spec. *)
Section SpecTools.
Context {F : Type} `{!Number F}.
Implicit Types (delta : F) (signal : Signal F).

Lemma PeakDetection_positive delta signal :
  positive delta = true →
  PeakDetection {[ "delta" := VFloat delta ]} signal
  = mret (peak_scan delta (samples signal)).
Proof.
  intros Hpos. unfold PeakDetection, float_arg.
  rewrite lookup_singleton_eq. py_simpl. by rewrite Hpos.
Qed.

(** An amplitude indicator built with [delta > 0] and applied to a signal. *)
Lemma amplitude_run_spec k signal delta ims ins vms vns :
  amplitude_group k = true → positive delta = true →
  peak_scan delta (samples signal) = (ims, ins, vms, vns) →
  run k {[ "delta" := VFloat delta ]} signal
  = if decide (length ims = 0) then (Return (VFloat nan), ["No peak found"])
    else amplitude_reduce k ims vms.
Proof.
  intros Hk Hpos Hscan.
  rewrite (amplitude_run k _ (VFloat delta) signal delta Hk) by
    (done || apply lookup_singleton_eq).
  pose proof (PeakDetection_positive delta signal Hpos) as Hdet.
  rewrite Hscan in Hdet. case_decide as Hlen.
  - by rewrite (@amplitude_algorithm_no_peak F _ spec_tools k signal _ (VFloat delta)
                  ims ins vms vns [] Hk (lookup_singleton_eq _ _) Hdet Hlen).
  - rewrite (@amplitude_algorithm_peaks F _ spec_tools k signal _ (VFloat delta)
               ims ins vms vns [] Hk (lookup_singleton_eq _ _) Hdet Hlen).
    by destruct (amplitude_reduce k ims vms).
Qed.

End SpecTools.

(* ===================================================================== *)
(** ** Exact numbers: order and arithmetic facts *)

Lemma Qltb_lt (x y : Q) : Qltb x y = true ↔ (x < y)%Q.
Proof. unfold Qltb. rewrite Qlt_alt. destruct (x ?= y)%Q; intuition congruence. Qed.

Lemma Qltb_ge (x y : Q) : Qltb x y = false ↔ (y <= x)%Q.
Proof.
  rewrite <- not_true_iff_false, Qltb_lt. split; [apply Qnot_lt_le|apply Qle_not_lt].
Qed.

Lemma positive_exact (d : exact) :
  positive d = true ↔ ∃ q, d = Real q ∧ (0 < q)%Q.
Proof.
  unfold positive; simpl. destruct d as [|q]; simpl.
  - split; [done|]. by intros (q & ? & _).
  - rewrite Qltb_lt. split; [by exists q|]. by intros (q' & [= ->] & ?).
Qed.

Lemma nonpositive_exact (q : Q) : (q <= 0)%Q → positive (Real q) = false.
Proof. intros Hq. unfold positive; simpl. by apply Qltb_ge. Qed.

Lemma exact_lt_irrefl (x : exact) : flt x x = false.
Proof. destruct x as [|q]; simpl; [done|]. apply Qltb_ge, Qle_refl. Qed.

Lemma exact_lt_sub_self (d x : exact) :
  positive d = true → flt x (fsub x d) = false.
Proof.
  intros (q & -> & Hq)%positive_exact. destruct x as [|a]; simpl; [done|].
  apply Qltb_ge. rewrite Qred_correct. lra.
Qed.

Lemma exact_lt_add_self (d x : exact) :
  positive d = true → flt (fadd x d) x = false.
Proof.
  intros (q & -> & Hq)%positive_exact. destruct x as [|a]; simpl; [done|].
  apply Qltb_ge. rewrite Qred_correct. lra.
Qed.

Lemma exact_lt_sub_number (d x m : exact) :
  flt x (fsub m d) = true → isnan m = false.
Proof. by destruct x, m, d. Qed.

(** The scan invariants hold on exact numbers for every [delta > 0]. *)
Lemma exact_peak_scan_inv (delta : exact) l ims ins vms vns :
  positive delta = true →
  peak_scan delta l = (ims, ins, vms, vns) →
  StronglySorted lt ims ∧ StronglySorted lt ins ∧
  length ins ≤ length ims ≤ S (length ins) ∧
  interleaved ims ins ∧
  Forall (λ x, isnan x = false) vms.
Proof.
  intros Hpos. apply peak_scan_inv.
  - apply exact_lt_irrefl.
  - intros x. by apply exact_lt_sub_self.
  - intros x. by apply exact_lt_add_self.
  - intros x m. apply exact_lt_sub_number.
Qed.

(* ===================================================================== *)
(** ** The numpy reductions on exact numbers *)

Lemma elem_of_reals (a : list exact) (q : Q) : q ∈ reals a ↔ Real q ∈ a.
Proof.
  unfold reals. rewrite list_elem_of_omap. split.
  - intros ([|q'] & Hin & [= ->]). done.
  - intros Hin. by exists (Real q).
Qed.

Lemma fmax_cases (x y : exact) : fmax x y = x ∨ fmax x y = y.
Proof. unfold fmax. repeat case_match; auto. Qed.

Lemma fmin_cases (x y : exact) : fmin x y = x ∨ fmin x y = y.
Proof. unfold fmin. repeat case_match; auto. Qed.

Lemma fmax_upper (x y : exact) (q : Q) :
  Real q = x ∨ Real q = y → ∃ m, fmax x y = Real m ∧ (q <= m)%Q.
Proof.
  unfold fmax. destruct x as [|a], y as [|b]; simpl; intros [[=]|[=]]; subst;
    try (eexists; split; [done|apply Qle_refl]);
    destruct (Qltb _ _) eqn:E; eexists; (split; [done|]);
    first [ apply Qltb_lt in E | apply Qltb_ge in E ]; lra.
Qed.

Lemma fmin_lower (x y : exact) (q : Q) :
  Real q = x ∨ Real q = y → ∃ m, fmin x y = Real m ∧ (m <= q)%Q.
Proof.
  unfold fmin. destruct x as [|a], y as [|b]; simpl; intros [[=]|[=]]; subst;
    try (eexists; split; [done|apply Qle_refl]);
    destruct (Qltb _ _) eqn:E; eexists; (split; [done|]);
    first [ apply Qltb_lt in E | apply Qltb_ge in E ]; lra.
Qed.

Lemma fold_fmax_spec (l : list exact) (x : exact) :
  fold_left fmax l x ∈ x :: l ∧
  ∀ q, Real q ∈ x :: l → ∃ m, fold_left fmax l x = Real m ∧ (q <= m)%Q.
Proof.
  revert x. induction l as [|y l IH]; intros x; simpl.
  - split; [left|]. intros q <-%list_elem_of_singleton.
    exists q. split; [done|apply Qle_refl].
  - destruct (IH (fmax x y)) as [Hin Hub]. split.
    + apply elem_of_cons in Hin as [Hin|Hin]; [|by do 2 right].
      rewrite Hin. destruct (fmax_cases x y) as [-> | ->]; [left|right; left].
    + intros q Hq.
      assert (Real q ∈ l ∨ (Real q = x ∨ Real q = y)) as [?|Hxy].
      { apply elem_of_cons in Hq as [Hq|Hq]; [by right; left|].
        apply elem_of_cons in Hq as [Hq|Hq]; [by right; right|by left]. }
      * apply Hub. by right.
      * destruct (fmax_upper x y q Hxy) as (m' & Em & Hle).
        destruct (Hub m') as (m & -> & Hle'); [rewrite Em; left|].
        exists m. split; [done|lra].
Qed.

Lemma fold_fmin_spec (l : list exact) (x : exact) :
  fold_left fmin l x ∈ x :: l ∧
  ∀ q, Real q ∈ x :: l → ∃ m, fold_left fmin l x = Real m ∧ (m <= q)%Q.
Proof.
  revert x. induction l as [|y l IH]; intros x; simpl.
  - split; [left|]. intros q <-%list_elem_of_singleton.
    exists q. split; [done|apply Qle_refl].
  - destruct (IH (fmin x y)) as [Hin Hlb]. split.
    + apply elem_of_cons in Hin as [Hin|Hin]; [|by do 2 right].
      rewrite Hin. destruct (fmin_cases x y) as [-> | ->]; [left|right; left].
    + intros q Hq.
      assert (Real q ∈ l ∨ (Real q = x ∨ Real q = y)) as [?|Hxy].
      { apply elem_of_cons in Hq as [Hq|Hq]; [by right; left|].
        apply elem_of_cons in Hq as [Hq|Hq]; [by right; right|by left]. }
      * apply Hlb. by right.
      * destruct (fmin_lower x y q Hxy) as (m' & Em & Hle).
        destruct (Hlb m') as (m & -> & Hle'); [rewrite Em; left|].
        exists m. split; [done|lra].
Qed.

(** [nanmax] of an array with at least one entry that is not NaN is the
    maximum of those entries. *)
Lemma nanmax_spec (a : list exact) (q0 : Q) :
  Real q0 ∈ a → ∃ m, nanmax a = (Return (Real m), []) ∧ is_maximum m (reals a).
Proof.
  intros Hq0. destruct a as [|x l]; [by apply elem_of_nil in Hq0|]. unfold nanmax.
  destruct (fold_fmax_spec l x) as [Hin Hub].
  destruct (Hub q0 Hq0) as (m & Em & _). exists m. rewrite Em. split; [done|].
  split.
  - apply elem_of_reals. by rewrite <- Em.
  - intros q Hq%elem_of_reals. destruct (Hub q Hq) as (m' & Em' & Hle).
    rewrite Em in Em'. by injection Em' as <-.
Qed.

Lemma nanmin_spec (a : list exact) (q0 : Q) :
  Real q0 ∈ a → ∃ m, nanmin a = (Return (Real m), []) ∧ is_minimum m (reals a).
Proof.
  intros Hq0. destruct a as [|x l]; [by apply elem_of_nil in Hq0|]. unfold nanmin.
  destruct (fold_fmin_spec l x) as [Hin Hlb].
  destruct (Hlb q0 Hq0) as (m & Em & _). exists m. rewrite Em. split; [done|].
  split.
  - apply elem_of_reals. by rewrite <- Em.
  - intros q Hq%elem_of_reals. destruct (Hlb q Hq) as (m' & Em' & Hle).
    rewrite Em in Em'. by injection Em' as <-.
Qed.

Lemma nansum_from (a : list exact) (s0 : Q) :
  ∃ s, fold_left fadd (map (λ x, if isnan x then of_Z 0 else x) a) (Real s0) = Real s
       ∧ (s == s0 + Qsum (reals a))%Q.
Proof.
  revert s0. induction a as [|x a IH]; intros s0; simpl.
  - exists s0. split; [done|]. unfold Qsum; simpl. lra.
  - destruct x as [|b]; simpl in *.
    + destruct (IH (Qred (s0 + inject_Z 0))) as (s & -> & Hs). exists s.
      split; [done|]. rewrite Hs, Qred_correct.
      change (inject_Z 0) with 0%Q. lra.
    + destruct (IH (Qred (s0 + b))) as (s & -> & Hs). exists s.
      split; [done|]. rewrite Hs, Qred_correct. unfold Qsum; simpl. lra.
Qed.

Lemma nancount_reals (a : list exact) : nancount a = length (reals a).
Proof.
  unfold nancount, reals. induction a as [|[|q] a IH]; [done| |].
  - rewrite filter_cons_False by done. exact IH.
  - rewrite filter_cons_True by done. exact (f_equal S IH).
Qed.

Lemma inject_nat_pos (n : nat) : 0 < n → (0 < inject_Z (Z.of_nat n))%Q.
Proof.
  intros Hn. change 0%Q with (inject_Z 0). rewrite <- Zlt_Qlt. lia.
Qed.

(** [nanmean] of an array with at least one entry that is not NaN is the mean
    of those entries. *)
Lemma nanmean_spec (a : list exact) (q0 : Q) :
  Real q0 ∈ a → ∃ m, nanmean a = Real m ∧ (m == Qmean (reals a))%Q.
Proof.
  intros Hq0. unfold nanmean, nansum.
  destruct (nansum_from a 0) as (s & Es & Hs).
  change (of_Z 0) with (Real 0) at 2. rewrite Es, nancount_reals.
  assert (0 < length (reals a)) as Hlen.
  { apply elem_of_reals in Hq0. destruct (reals a); [by apply elem_of_nil in Hq0|simpl; lia]. }
  pose proof (inject_nat_pos _ Hlen) as Hpos.
  simpl. unfold exact_div.
  destruct (Qeq_bool _ 0) eqn:E.
  { apply Qeq_bool_eq in E. rewrite E in Hpos. lra. }
  eexists. split; [done|]. rewrite Qred_correct. unfold Qmean.
  rewrite Hs. by rewrite Qplus_0_l.
Qed.

Lemma reals_nil_cons (x : exact) (a : list exact) :
  reals (x :: a) = [] → x = NaN ∧ reals a = [].
Proof. by destruct x. Qed.

Lemma fold_fmax_all_nan (l : list exact) : reals l = [] → fold_left fmax l NaN = NaN.
Proof.
  induction l as [|x l IH]; [done|]. intros [-> Hl]%reals_nil_cons. by apply IH.
Qed.

Lemma fold_fmin_all_nan (l : list exact) : reals l = [] → fold_left fmin l NaN = NaN.
Proof.
  induction l as [|x l IH]; [done|]. intros [-> Hl]%reals_nil_cons. by apply IH.
Qed.

(** On an array of NaN only, the three reductions are NaN. *)
Lemma nan_reductions_all_nan (a : list exact) :
  a ≠ [] → reals a = [] →
  nanmax a = (Return NaN, []) ∧ nanmin a = (Return NaN, []) ∧ nanmean a = NaN.
Proof.
  intros Hne Hr. destruct a as [|x l]; [done|].
  pose proof (reals_nil_cons x l Hr) as [-> Hl]. unfold nanmax, nanmin.
  rewrite fold_fmax_all_nan, fold_fmin_all_nan by done. do 2 (split; [done|]).
  unfold nanmean. rewrite nancount_reals, Hr. simpl. by destruct (nansum _).
Qed.

Lemma Qsum_bounds (l : list Q) (lo hi : Q) :
  (∀ q, q ∈ l → (lo <= q <= hi)%Q) →
  (inject_Z (Z.of_nat (length l)) * lo <= Qsum l
   ∧ Qsum l <= inject_Z (Z.of_nat (length l)) * hi)%Q.
Proof.
  induction l as [|q l IH]; intros Hb.
  - unfold Qsum; simpl. change (inject_Z (Z.of_nat 0)) with 0%Q. lra.
  - destruct IH as [IH1 IH2]; [intros; apply Hb; by right|].
    destruct (Hb q) as [Hq1 Hq2]; [left|].
    change (Qsum (q :: l)) with (q + Qsum l)%Q.
    change (length (q :: l)) with (S (length l)).
    rewrite Nat2Z.inj_succ, <- Z.add_1_r, inject_Z_plus.
    change (inject_Z 1) with 1%Q. lra.
Qed.

(** The mean of a non-empty list lies between any lower and upper bound of
    its elements. *)
Lemma Qmean_between (l : list Q) (lo hi : Q) :
  l ≠ [] → (∀ q, q ∈ l → (lo <= q <= hi)%Q) → (lo <= Qmean l <= hi)%Q.
Proof.
  intros Hne Hb. destruct (Qsum_bounds l lo hi Hb) as [H1 H2].
  assert (0 < inject_Z (Z.of_nat (length l)))%Q as Hpos.
  { apply inject_nat_pos. destruct l; [done|simpl; lia]. }
  unfold Qmean. split.
  - apply Qle_shift_div_l; [done|]. lra.
  - apply Qle_shift_div_r; [done|]. lra.
Qed.

(* ===================================================================== *)
(** ** The numpy reductions on ordered numbers *)

Section OrderedReductions.
Context {F : Type} `{!Number F, !Leq F} (laws : OrderLaws F).

Ltac with_laws :=
  pose proof (fle_refl F laws); pose proof (flt_fle F laws);
  pose proof (fle_total F laws); pose proof (fle_trans F laws).

Lemma fmax_bounds (x y : F) :
  (fmax x y = x ∨ fmax x y = y) ∧
  (isnan x = false → isnan (fmax x y) = false ∧ fle x (fmax x y) = true) ∧
  (isnan y = false → isnan (fmax x y) = false ∧ fle y (fmax x y) = true).
Proof.
  unfold fmax. with_laws.
  destruct (isnan x) eqn:Ex, (isnan y) eqn:Ey; try destruct (flt x y) eqn:Elt;
    (split; [auto|]); split; intros; try done;
    eauto.
Qed.

Lemma fmin_bounds (x y : F) :
  (fmin x y = x ∨ fmin x y = y) ∧
  (isnan x = false → isnan (fmin x y) = false ∧ fle (fmin x y) x = true) ∧
  (isnan y = false → isnan (fmin x y) = false ∧ fle (fmin x y) y = true).
Proof.
  unfold fmin. with_laws.
  destruct (isnan x) eqn:Ex, (isnan y) eqn:Ey; try destruct (flt y x) eqn:Elt;
    (split; [auto|]); split; intros; try done;
    eauto.
Qed.

(** The [fmax] reduction is an entry of the array and, as soon as one entry
    is a number, a number that no entry exceeds. *)
Lemma fold_fmax_bounds (l : list F) (x : F) :
  fold_left fmax l x ∈ x :: l ∧
  ∀ y, y ∈ x :: l → isnan y = false →
       isnan (fold_left fmax l x) = false ∧ fle y (fold_left fmax l x) = true.
Proof.
  with_laws. revert x. induction l as [|z l IH]; intros x; simpl.
  - split; [left|]. intros y ->%list_elem_of_singleton Hy.
    eauto.
  - destruct (IH (fmax x z)) as [Hin Hub].
    destruct (fmax_bounds x z) as (Hcase & Hx & Hz).
    split.
    + apply elem_of_cons in Hin as [->|Hin]; [|by do 2 right].
      destruct Hcase as [-> | ->]; [left|right; left].
    + intros y Hy Hnum.
      assert (∀ u, isnan u = false → isnan (fmax x z) = false ∧ fle u (fmax x z) = true →
                   isnan (fold_left fmax l (fmax x z)) = false ∧
                   fle u (fold_left fmax l (fmax x z)) = true) as Hvia.
      { intros u _ [Hn Hle]. destruct (Hub (fmax x z)) as [Hr Hle']; [left|done|].
        eauto. }
      apply elem_of_cons in Hy as [->|Hy]; [by apply Hvia, Hx|].
      apply elem_of_cons in Hy as [->|Hy]; [by apply Hvia, Hz|].
      apply Hub; [by right|done].
Qed.

Lemma fold_fmin_bounds (l : list F) (x : F) :
  fold_left fmin l x ∈ x :: l ∧
  ∀ y, y ∈ x :: l → isnan y = false →
       isnan (fold_left fmin l x) = false ∧ fle (fold_left fmin l x) y = true.
Proof.
  with_laws. revert x. induction l as [|z l IH]; intros x; simpl.
  - split; [left|]. intros y ->%list_elem_of_singleton Hy.
    eauto.
  - destruct (IH (fmin x z)) as [Hin Hlb].
    destruct (fmin_bounds x z) as (Hcase & Hx & Hz).
    split.
    + apply elem_of_cons in Hin as [->|Hin]; [|by do 2 right].
      destruct Hcase as [-> | ->]; [left|right; left].
    + intros y Hy Hnum.
      assert (∀ u, isnan u = false → isnan (fmin x z) = false ∧ fle (fmin x z) u = true →
                   isnan (fold_left fmin l (fmin x z)) = false ∧
                   fle (fold_left fmin l (fmin x z)) u = true) as Hvia.
      { intros u _ [Hn Hle]. destruct (Hlb (fmin x z)) as [Hr Hle']; [left|done|].
        eauto. }
      apply elem_of_cons in Hy as [->|Hy]; [by apply Hvia, Hx|].
      apply elem_of_cons in Hy as [->|Hy]; [by apply Hvia, Hz|].
      apply Hlb; [by right|done].
Qed.

(** [nanmax] and [nanmin] of an array that is not empty. *)
Lemma nan_reductions_bounds (a : list F) :
  a ≠ [] →
  ∃ mx mn : F,
    nanmax a = (Return mx, []) ∧ nanmin a = (Return mn, []) ∧ mx ∈ a ∧ mn ∈ a ∧
    ∀ y, y ∈ a → isnan y = false →
         isnan mx = false ∧ fle y mx = true ∧ isnan mn = false ∧ fle mn y = true.
Proof.
  destruct a as [|x l]; [done|]. intros _.
  destruct (fold_fmax_bounds l x) as [Hin Hub].
  destruct (fold_fmin_bounds l x) as [Hin' Hlb].
  exists (fold_left fmax l x), (fold_left fmin l x).
  do 4 (split; [done|]). intros y Hy Hnum.
  destruct (Hub y Hy Hnum), (Hlb y Hy Hnum). done.
Qed.

Lemma nansum_all_nan (a : list F) :
  (∀ y, y ∈ a → isnan y = true) → nansum a = of_Z 0 ∧ nancount a = 0.
Proof.
  unfold nansum, nancount. induction a as [|x a IH]; [done|]. intros Hall.
  assert (isnan x = true) as Ex by (apply Hall; left).
  destruct IH as [IHs IHc]; [intros y Hy; apply Hall; by right|].
  simpl. rewrite Ex, (zero_plus_zero F laws).
  rewrite filter_cons_False by (by rewrite Ex). done.
Qed.

(** The mean of an array of NaN is NaN. *)
Lemma nanmean_all_nan (a : list F) :
  (∀ y, y ∈ a → isnan y = true) → isnan (nanmean a) = true.
Proof.
  intros Hall. destruct (nansum_all_nan a Hall) as [Es Ec].
  unfold nanmean. rewrite Es, Ec. apply (zero_over_zero F laws).
Qed.

(** The three reductions on one array: [nanmax] and [nanmin] are NaN
    together, the mean is NaN when they are, and otherwise min ≤ max and the
    array holds a number. *)
Lemma nan_reductions_order (a : list F) :
  a ≠ [] →
  ∃ mx mn : F,
    nanmax a = (Return mx, []) ∧ nanmin a = (Return mn, []) ∧
    (isnan mx = true ↔ isnan mn = true) ∧
    (isnan mn = true → isnan (nanmean a) = true) ∧
    (isnan mx = false → fle mn mx = true) ∧
    (isnan mn = false → 0 < nancount a).
Proof.
  intros Hne.
  destruct (nan_reductions_bounds a Hne) as (mx & mn & Emx & Emn & Hmx & Hmn & Hb).
  exists mx, mn. do 2 (split; [done|]). split; [|split; [|split]].
  - split; intros Hnan.
    + destruct (isnan mn) eqn:E; [done|]. destruct (Hb mn Hmn E) as (? & _). congruence.
    + destruct (isnan mx) eqn:E; [done|]. destruct (Hb mx Hmx E) as (_ & _ & ? & _).
      congruence.
  - intros Hnan. apply nanmean_all_nan. intros y Hy.
    destruct (isnan y) eqn:E; [done|]. destruct (Hb y Hy E) as (_ & _ & ? & _). congruence.
  - intros Hnum. by destruct (Hb mx Hmx Hnum) as (_ & _ & _ & ?).
  - intros Hnum. unfold nancount.
    assert (mn ∈ filter (λ x, isnan x = false) a) as Hin
      by (by apply list_elem_of_filter).
    destruct (filter _ a); [by apply elem_of_nil in Hin|simpl; lia].
Qed.

(** On an array with a number in it, [nanmax] and [nanmin] are the greatest
    and the least of its numbers. *)
Lemma nan_reductions_numbers (a : list F) (x0 : F) :
  x0 ∈ a → isnan x0 = false →
  ∃ mx mn : F,
    nanmax a = (Return mx, []) ∧ nanmin a = (Return mn, []) ∧
    is_greatest mx (numbers a) ∧ is_least mn (numbers a).
Proof.
  intros Hin Hnum.
  assert (a ≠ []) as Hne by (intros ->; by apply elem_of_nil in Hin).
  destruct (nan_reductions_bounds a Hne) as (mx & mn & Emx & Emn & Hmx & Hmn & Hb).
  exists mx, mn. do 2 (split; [done|]).
  destruct (Hb x0 Hin Hnum) as (Nmx & _ & Nmn & _).
  unfold is_greatest, is_least, numbers. split; split.
  - by apply list_elem_of_filter.
  - intros y [Hy Hy']%list_elem_of_filter. by destruct (Hb y Hy' Hy) as (_ & ? & _).
  - by apply list_elem_of_filter.
  - intros y [Hy Hy']%list_elem_of_filter. by destruct (Hb y Hy' Hy) as (_ & _ & _ & ?).
Qed.

Section WithTools.
Context `{!Tools F}.

(** The three amplitude indicators on whatever peak set the detector
    returns. *)
Lemma amplitude_order (params : gmap string (value F)) (delta : value F)
    (signal : Signal F) (ims ins : list nat) (vms vns : list F) (w : list string) :
  params !! "delta" = Some delta →
  _PeakDetection {[ "delta" := delta ]} signal = (Return (ims, ins, vms, vns), w) →
  length ims = length vms →
  ∃ (mx mn av : F) (w' : list string),
    PeaksMax_algorithm signal params = (Return (VFloat mx), w') ∧
    PeaksMin_algorithm signal params = (Return (VFloat mn), w') ∧
    PeaksMean_algorithm signal params = (Return (VFloat av), w') ∧
    (length ims = 0 → isnan mx = true) ∧
    (isnan mx = true ↔ isnan mn = true) ∧
    (isnan mn = true → isnan av = true) ∧
    (isnan mx = false → fle mn mx = true) ∧
    (isnan mn = false → av = nanmean vms ∧ 0 < nancount vms).
Proof.
  intros Hd Hdet Hlen.
  change (PeaksMax_algorithm signal params) with (algorithm PeaksMax signal params).
  change (PeaksMin_algorithm signal params) with (algorithm PeaksMin signal params).
  change (PeaksMean_algorithm signal params) with (algorithm PeaksMean signal params).
  pose proof (nan_isnan F laws) as Hnan.
  destruct (decide (length ims = 0)) as [Hz|Hnz].
  - exists nan, nan, nan, (w ++ ["No peak found"]).
    rewrite !(amplitude_algorithm_no_peak _ signal params delta ims ins vms vns w)
      by done.
    do 3 (split; [done|]). split; [done|]. split; [done|]. split; [done|].
    split; intros E; congruence.
  - assert (vms ≠ []) as Hne by (intros ->; simpl in Hlen; lia).
    destruct (nan_reductions_order vms Hne)
      as (mx & mn & Emx & Emn & H1 & H2 & H3 & H4).
    exists mx, mn, (nanmean vms), (w ++ []).
    rewrite !(amplitude_algorithm_peaks _ signal params delta ims ins vms vns w)
      by done.
    unfold amplitude_reduce. rewrite Emx, Emn. simpl.
    do 3 (split; [done|]). split; [done|]. do 3 (split; [done|]). eauto.
Qed.

(** The three amplitude indicators on a peak set that holds a number. *)
Lemma amplitude_numbers (params : gmap string (value F)) (delta : value F)
    (signal : Signal F) (ims ins : list nat) (vms vns : list F) (w : list string)
    (x0 : F) :
  params !! "delta" = Some delta →
  _PeakDetection {[ "delta" := delta ]} signal = (Return (ims, ins, vms, vns), w) →
  length ims = length vms →
  x0 ∈ vms → isnan x0 = false →
  ∃ mx mn : F,
    PeaksMax_algorithm signal params = (Return (VFloat mx), w) ∧
    PeaksMin_algorithm signal params = (Return (VFloat mn), w) ∧
    PeaksMean_algorithm signal params = (Return (VFloat (nanmean vms)), w) ∧
    is_greatest mx (numbers vms) ∧ is_least mn (numbers vms).
Proof.
  intros Hd Hdet Hlen Hin Hnum.
  change (PeaksMax_algorithm signal params) with (algorithm PeaksMax signal params).
  change (PeaksMin_algorithm signal params) with (algorithm PeaksMin signal params).
  change (PeaksMean_algorithm signal params) with (algorithm PeaksMean signal params).
  assert (length ims ≠ 0) as Hnz.
  { rewrite Hlen. destruct vms; [by apply elem_of_nil in Hin|done]. }
  destruct (nan_reductions_numbers vms x0 Hin Hnum) as (mx & mn & Emx & Emn & Hmx & Hmn).
  exists mx, mn.
  rewrite !(amplitude_algorithm_peaks _ signal params delta ims ins vms vns w) by done.
  unfold amplitude_reduce. rewrite Emx, Emn. simpl. by rewrite app_nil_r.
Qed.

End WithTools.
End OrderedReductions.

(* ===================================================================== *)
(** ** The order laws on exact numbers and on doubles *)

Lemma exact_order_laws : OrderLaws exact.
Proof.
  split; try done.
  - intros [|a] [|b]; simpl; done.
  - intros [|a] [|b]; simpl; try done. rewrite Qltb_lt. intros H.
    apply Qle_bool_iff. lra.
  - intros [|a] H; [done|]. apply Qle_bool_iff. lra.
  - intros [|a] [|b]; simpl; try done. intros _ _ H%Qltb_ge. by apply Qle_bool_iff.
  - intros [|a] [|b] [|c]; try done. unfold fle, exact_leq. simpl.
    rewrite !Qle_bool_iff. lra.
Qed.

Ltac compare_cases :=
  repeat match goal with
  | H : context [Pos.compare_cont Eq ?a ?b] |- _ =>
      change (Pos.compare_cont Eq a b) with (Pos.compare a b) in H
  | |- context [Pos.compare_cont Eq ?a ?b] =>
      change (Pos.compare_cont Eq a b) with (Pos.compare a b)
  end;
  repeat match goal with
  | H : context [Z.compare ?a ?b] |- _ => destruct (Z.compare_spec a b); simpl in H
  | |- context [Z.compare ?a ?b] => destruct (Z.compare_spec a b); simpl
  | H : context [Pos.compare ?a ?b] |- _ => destruct (Pos.compare_spec a b); simpl in H
  | |- context [Pos.compare ?a ?b] => destruct (Pos.compare_spec a b); simpl
  end;
  subst; try done; try lia.

Lemma SFcompare_refl (x : spec_float) : x ≠ S754_nan → SFcompare x x = Some Eq.
Proof.
  destruct x as [s|s| |s m e]; try done; intros _; simpl.
  - by destruct s.
  - destruct s; rewrite Z.compare_refl;
      change (Pos.compare_cont Eq m m) with (Pos.compare m m);
      by rewrite Pos.compare_refl.
Qed.

Lemma SFcompare_antisym (x y : spec_float) :
  SFcompare y x = CompOpp <$> SFcompare x y.
Proof.
  destruct x as [s|s| |s m e], y as [s'|s'| |s' m' e']; simpl; try done;
    try (by destruct s); try (by destruct s'); try (by destruct s, s').
  destruct s, s'; simpl; try done; f_equal;
    rewrite (Z.compare_antisym e' e);
    change (Pos.compare_cont Eq m m') with (Pos.compare m m');
    change (Pos.compare_cont Eq m' m) with (Pos.compare m' m);
    rewrite (Pos.compare_antisym m' m);
    destruct (e' ?= e)%Z; simpl; try done; by destruct (m' ?= m)%positive.
Qed.

Lemma SFleb_trans (x y z : spec_float) :
  SFleb x y = true → SFleb y z = true → SFleb x z = true.
Proof.
  unfold SFleb.
  destruct x as [s|s| |s m e], y as [s'|s'| |s' m' e'], z as [s''|s''| |s'' m'' e''];
    simpl; try done;
    try (destruct s; done); try (destruct s'; done); try (destruct s''; done);
    try (destruct s, s'; done); try (destruct s, s''; done);
    try (destruct s', s''; done); try (destruct s, s', s''; done).
  destruct s, s', s''; try done; intros H1 H2; compare_cases.
Qed.

Lemma SFleb_total (x y : spec_float) :
  x ≠ S754_nan → y ≠ S754_nan → SFltb x y = false → SFleb y x = true.
Proof.
  intros Hx Hy. unfold SFltb, SFleb. rewrite (SFcompare_antisym x y).
  assert (∃ c, SFcompare x y = Some c) as [c ->].
  { destruct x, y; try done; simpl; eauto. }
  by destruct c.
Qed.

(** A double is NaN exactly when its bits are those of NaN. *)
Lemma is_nan_spec (x : float) : PrimFloat.is_nan x = false ↔ Prim2SF x ≠ S754_nan.
Proof.
  unfold PrimFloat.is_nan. rewrite FloatAxioms.eqb_spec. unfold SFeqb. split.
  - intros H E. rewrite E in H. done.
  - intros H. by rewrite (SFcompare_refl _ H).
Qed.

Lemma binary64_order_laws : OrderLaws float.
Proof.
  split.
  - by vm_compute.
  - intros x y. simpl. rewrite FloatAxioms.ltb_spec, !is_nan_spec. unfold SFltb.
    destruct (Prim2SF x), (Prim2SF y); done.
  - intros x y. simpl. unfold fle, binary64_leq. rewrite FloatAxioms.ltb_spec, FloatAxioms.leb_spec.
    unfold SFltb, SFleb. by destruct (SFcompare _ _) as [[]|].
  - intros x. simpl. unfold fle, binary64_leq. rewrite is_nan_spec, FloatAxioms.leb_spec.
    intros H. unfold SFleb. by rewrite (SFcompare_refl _ H).
  - intros x y. simpl. unfold fle, binary64_leq.
    rewrite !is_nan_spec, FloatAxioms.ltb_spec, FloatAxioms.leb_spec.
    apply SFleb_total.
  - intros x y z. unfold fle, binary64_leq. rewrite !FloatAxioms.leb_spec. apply SFleb_trans.
  - by vm_compute.
  - by vm_compute.
Qed.

(** *** The mean of the numbers of an array of doubles *)

Lemma same_double_refl (x : float) : same_double x x.
Proof. by left. Qed.

Lemma same_double_add_zero (s s' : float) :
  same_double s s' → same_double (s + 0)%float s'.
Proof.
  assert (Prim2SF 0%float = S754_zero false) as E0 by (by vm_compute).
  intros [<-|(a & b & Ea & Eb)].
  - pose proof (FloatAxioms.add_spec s 0%float) as E. rewrite E0 in E. unfold SF64add in E.
    destruct (Prim2SF s) as [[]| | |] eqn:Es; simpl in E.
    + right. by exists false, true.
    + left. apply Prim2SF_inj. by rewrite E, Es.
    + left. apply Prim2SF_inj. by rewrite E, Es.
    + left. apply Prim2SF_inj. by rewrite E, Es.
    + left. apply Prim2SF_inj. by rewrite E, Es.
  - right. pose proof (FloatAxioms.add_spec s 0%float) as E. rewrite E0, Ea in E.
    unfold SF64add in E. destruct a; simpl in E; eauto.
Qed.

Lemma same_double_add (s s' x : float) :
  same_double s s' → same_double (s + x)%float (s' + x)%float.
Proof.
  intros [<-|(a & b & Ea & Eb)]; [by left|].
  pose proof (FloatAxioms.add_spec s x) as E. pose proof (FloatAxioms.add_spec s' x) as E'.
  rewrite Ea in E. rewrite Eb in E'. unfold SF64add in E, E'.
  destruct (Prim2SF x) as [c| | |] eqn:Ex; simpl in E, E'.
  - right. destruct a, b, c; simpl in E, E'; eauto.
  - left. apply Prim2SF_inj. by rewrite E, E'.
  - left. apply Prim2SF_inj. by rewrite E, E'.
  - left. apply Prim2SF_inj. by rewrite E, E'.
Qed.

Lemma same_double_div (s s' n : float) :
  same_double s s' → same_double (s / n)%float (s' / n)%float.
Proof.
  intros [<-|(a & b & Ea & Eb)]; [by left|].
  pose proof (FloatAxioms.div_spec s n) as E. pose proof (FloatAxioms.div_spec s' n) as E'.
  rewrite Ea in E. rewrite Eb in E'. unfold SF64div in E, E'.
  destruct (Prim2SF n) as [c|c| |c m e] eqn:En; simpl in E, E'.
  - left. apply Prim2SF_inj. by rewrite E, E'.
  - right. eauto.
  - left. apply Prim2SF_inj. by rewrite E, E'.
  - right. eauto.
Qed.

Lemma nansum_numbers_from (a : list float) (s s' : float) :
  same_double s s' →
  same_double
    (fold_left fadd (map (λ x : float, if isnan x then of_Z 0 else x) a) s)
    (fold_left fadd (numbers a) s').
Proof.
  revert s s'. induction a as [|x a IH]; intros s s' Hs; [done|].
  unfold numbers. simpl. destruct (PrimFloat.is_nan x) eqn:Ex.
  - rewrite filter_cons_False by (simpl; by rewrite Ex).
    apply IH. by apply same_double_add_zero.
  - rewrite filter_cons_True by done. simpl. apply IH. by apply same_double_add.
Qed.

(** On doubles, [nanmean] is the mean of the entries that are not NaN. *)
Lemma binary64_nanmean_numbers (a : list float) :
  same_double (nanmean a) (mean (numbers a)).
Proof.
  unfold nanmean, mean, nansum, nancount. fold (numbers a).
  apply same_double_div, nansum_numbers_from, same_double_refl.
Qed.

(** *** Sums and means of finite doubles are not NaN *)

Lemma shr_1_nonneg (mrs : shr_record) : (0 ≤ shr_m mrs)%Z → (0 ≤ shr_m (shr_1 mrs))%Z.
Proof. destruct mrs as [[|[p|p|]|p] r s]; simpl; lia. Qed.

Lemma iter_pos_invariant {A} (P : A → Prop) (f : A → A) :
  (∀ x, P x → P (f x)) → ∀ (p : BinNums.positive) (x : A), P x → P (SpecFloat.iter_pos f p x).
Proof. intros Hf. induction p as [p IH|p IH|]; intros x Hx; simpl; auto. Qed.

Lemma shr_nonneg (mrs : shr_record) (e n : Z) :
  (0 ≤ shr_m mrs)%Z → (0 ≤ shr_m (shr mrs e n).1)%Z.
Proof.
  intros H. destruct n; simpl; try done.
  by apply (iter_pos_invariant (λ r, (0 ≤ shr_m r)%Z) shr_1 shr_1_nonneg).
Qed.

Lemma shr_fexp_nonneg (m e : Z) (l : location) :
  (0 ≤ m)%Z → (0 ≤ shr_m (shr_fexp prec emax m e l).1)%Z.
Proof. intros H. unfold shr_fexp. apply shr_nonneg. by destruct l as [|[]]. Qed.

Lemma round_nearest_even_nonneg (m : Z) (l : location) :
  (0 ≤ m)%Z → (0 ≤ round_nearest_even m l)%Z.
Proof. intros H. destruct l as [|[]]; simpl; try destruct (Z.even m); lia. Qed.

(** Rounding a mantissa that is not negative does not give NaN. *)
Lemma binary_round_aux_not_nan (sx : bool) (mx ex : Z) (lx : location) :
  (0 ≤ mx)%Z → binary_round_aux prec emax sx mx ex lx ≠ S754_nan.
Proof.
  intros H. unfold binary_round_aux.
  pose proof (shr_fexp_nonneg mx ex lx H) as H1.
  destruct (shr_fexp prec emax mx ex lx) as [mrs' e'].
  pose proof (shr_fexp_nonneg _ e' loc_Exact
                (round_nearest_even_nonneg _ (loc_of_shr_record mrs') H1)) as H2.
  destruct (shr_fexp prec emax _ e' loc_Exact) as [mrs'' e''].
  simpl in H2. destruct (shr_m mrs''); [done| |lia].
  by destruct (_ <=? _)%Z.
Qed.

Lemma binary_normalize_not_nan (m e : Z) (szero : bool) :
  binary_normalize prec emax m e szero ≠ S754_nan.
Proof.
  destruct m; simpl; [done| |]; unfold binary_round;
    destruct (shl_align _ _ _); by apply binary_round_aux_not_nan.
Qed.

Lemma SFadd_not_nan (x y : spec_float) :
  x ≠ S754_nan → sf_finite y = true → SF64add x y ≠ S754_nan.
Proof.
  intros Hx Hy. unfold SF64add.
  destruct x as [s|s| |s m e], y as [s'|s'| |s' m' e']; try done; simpl.
  - by destruct s, s'.
  - apply binary_normalize_not_nan.
Qed.

Lemma SFdiv_not_nan (x : spec_float) (s : bool) (m : BinNums.positive) (e : Z) :
  x ≠ S754_nan → SF64div x (S754_finite s m e) ≠ S754_nan.
Proof.
  intros Hx. unfold SF64div. destruct x as [s'|s'| |s' m' e']; try done. simpl.
  unfold SFdiv_core_binary.
  set (m1 := match _ with Z.pos _ => _ | Z0 => _ | Z.neg _ => _ end).
  assert (0 ≤ m1)%Z as Hm1.
  { subst m1. destruct (_ - _ - _)%Z; [lia| |lia]. by apply Z.shiftl_nonneg. }
  pose proof (Z.div_pos m1 (Z.pos m) Hm1 ltac:(lia)) as Hq.
  unfold Z.div in Hq. destruct (Z.div_eucl m1 (Z.pos m)) as [q r]. simpl in Hq.
  by apply binary_round_aux_not_nan.
Qed.

Lemma nansum_not_nan_from (a : list float) (s : float) :
  Forall (λ x, isnan x = true ∨ finite x = true) a →
  Prim2SF s ≠ S754_nan →
  Prim2SF (fold_left fadd (map (λ x : float, if isnan x then of_Z 0 else x) a) s)
  ≠ S754_nan.
Proof.
  intros Ha. revert s. induction Ha as [|x a Hx Ha IH]; intros s Hs; [done|].
  simpl. apply IH. destruct (PrimFloat.is_nan x) eqn:Ex.
  - rewrite FloatAxioms.add_spec. by apply SFadd_not_nan.
  - destruct Hx as [Hx|Hx]; [simpl in Hx; congruence|].
    rewrite FloatAxioms.add_spec. by apply SFadd_not_nan.
Qed.

Lemma small_count_finite (n : nat) :
  0 < n < 8 →
  ∃ s m e, Prim2SF (of_Z (Z.of_nat n) : float) = S754_finite s m e.
Proof.
  intros [H1 H2]. do 8 (destruct n as [|n]; [try lia; by vm_compute; eauto|]). lia.
Qed.

(** With fewer than eight entries, all finite or NaN and one of them finite,
    the mean is not NaN. *)
Lemma nanmean_not_nan (a : list float) :
  Forall (λ x, isnan x = true ∨ finite x = true) a →
  0 < nancount a → length a < 8 →
  isnan (nanmean a) = false.
Proof.
  intros Ha Hpos Hlen. simpl. apply is_nan_spec. unfold nanmean.
  assert (nancount a ≤ length a) as Hle by apply length_filter.
  destruct (small_count_finite (nancount a)) as (s & m & e & Ec); [lia|].
  unfold fdiv; simpl. rewrite FloatAxioms.div_spec. simpl in Ec. rewrite Ec.
  apply SFdiv_not_nan. apply nansum_not_nan_from; [done|by vm_compute].
Qed.

(* ===================================================================== *)
(** ** The indicators: claims C1 to C9 *)

(** C1.  Every interval-group indicator is meant to run its algorithm on the
    resolved parameter map (keys [delta], [pre_max], [post_max]) without a
    lookup error.  The code does not: whatever the tools are, for every valid
    choice of the three parameters and every signal, [DurationMin],
    [DurationMax], [DurationMean] and [SlopeMin] raise [KeyError] on the key
    [win_pre], which no descriptor declares. *)
Theorem interval_indicators_lookup_error {F} `{!Number F, !Tools F}
    (delta pre_max post_max : F) (signal : Signal F) :
  positive delta = true → positive pre_max = true → positive post_max = true →
  let kwargs := interval_kw delta pre_max post_max in
  run DurationMin kwargs signal = (Raise (KeyError "win_pre"), []) ∧
  run DurationMax kwargs signal = (Raise (KeyError "win_pre"), []) ∧
  run DurationMean kwargs signal = (Raise (KeyError "win_pre"), []) ∧
  run SlopeMin kwargs signal = (Raise (KeyError "win_pre"), []).
Proof.
  intros Hd Hpre Hpost. unfold interval_kw. cbv zeta.
  rewrite !interval_run by done. simpl.
  unfold DurationMin_algorithm, DurationMax_algorithm, DurationMean_algorithm,
    SlopeMin_algorithm, getitem.
  rewrite lookup_insert_eq. py_simpl.
  by repeat (rewrite ?lookup_insert_ne, ?lookup_singleton_ne by done).
Qed.

Lemma interval_indicators_lookup_error_witness :
  let kwargs := interval_kw (Real 1) (Real 1) (Real 1) in
  run DurationMin kwargs scenario1 = (Raise (KeyError "win_pre"), []) ∧
  run DurationMax kwargs scenario1 = (Raise (KeyError "win_pre"), []) ∧
  run DurationMean kwargs scenario1 = (Raise (KeyError "win_pre"), []) ∧
  run SlopeMin kwargs scenario1 = (Raise (KeyError "win_pre"), []).
Proof.
  exact (@interval_indicators_lookup_error exact _ spec_tools
           (Real 1) (Real 1) (Real 1) scenario1 eq_refl eq_refl eq_refl).
Defined.

(** C2, as amended.  On every signal on which peak detection returns an
    empty [val_maxs] (with [idx_maxs], which runs parallel to it), every
    amplitude-group indicator, [PeaksNum] included, returns NaN and reports
    the warning "No peak found".  This holds whatever the detector and the
    numbers are. *)
Theorem amplitude_indicators_no_peak {F} `{!Number F, !Tools F}
    (ind : Indicator F) (delta : value F) (signal : Signal F)
    (ims ins : list nat) (vms vns : list F) (w : list string) :
  amplitude_group (ind_kind ind) = true →
  ind_params ind !! "delta" = Some delta →
  _PeakDetection {[ "delta" := delta ]} signal = (Return (ims, ins, vms, vns), w) →
  length ims = length vms → vms = [] →
  compute ind signal = (Return (VFloat nan), w ++ ["No peak found"]).
Proof.
  intros Hk Hd Hdet Hlen ->. unfold compute.
  by apply (amplitude_algorithm_no_peak _ signal _ delta ims ins [] vns w).
Qed.

Lemma amplitude_indicators_no_peak_witness :
  compute (mkIndicator PeaksNum (delta_kw 1)) (flat (Real 1))
  = (Return (VFloat NaN), ["No peak found"]).
Proof.
  exact (@amplitude_indicators_no_peak exact _ spec_tools
           (mkIndicator PeaksNum (delta_kw 1)) (VFloat (Real 1)) (flat (Real 1))
           [] [] [] [] [] eq_refl eq_refl eq_refl eq_refl eq_refl).
Defined.

(** C2, counterexample to the claim as stated: on the flat signal with
    [delta = 1] peak detection returns an empty [val_maxs], and [PeaksNum]
    returns NaN, not 0. *)
Lemma PeaksNum_no_peak_is_not_zero :
  PeakDetection (delta_kw 1) (flat (Real 1)) = (Return ([], [], [], []), []) ∧
  run PeaksNum (delta_kw 1) (flat (Real 1)) = (Return (VFloat NaN), ["No peak found"]) ∧
  (run PeaksNum (delta_kw 1) (flat (Real 1))).1 ≠ Return (VInt 0).
Proof. repeat split. by vm_compute. Qed.

(** C3, as amended.  On the signal [0, 2, 0, 3, 0, 5, 0, 1, 0] with
    [delta = 1.5] the detector emits maxima at indices [1, 3, 5] with values
    [2, 3, 5] and minima at indices [2, 4] with values [0, 0]; [PeaksNum]
    returns 3 and [PeaksMax] returns 5. *)
Theorem scenario1_peaks :
  PeakDetection (delta_kw (3 # 2)) scenario1
  = (Return ([1; 3; 5], [2; 4], [Real 2; Real 3; Real 5], [Real 0; Real 0]), []) ∧
  run PeaksNum (delta_kw (3 # 2)) scenario1 = (Return (VInt 3), []) ∧
  run PeaksMax (delta_kw (3 # 2)) scenario1 = (Return (VFloat (Real 5)), []).
Proof. by vm_compute. Qed.

(** C3, counterexample to the claim as stated: the minima are emitted at
    neither [0, 2, 4] nor [0, 2, 4, 6]; index 0 is never emitted, because
    the scan starts by seeking a maximum. *)
Lemma scenario1_minima_not_from_zero :
  ¬ ∃ ims ins vms vns,
      PeakDetection (delta_kw (3 # 2)) scenario1 = (Return (ims, ins, vms, vns), []) ∧
      (ins = [0; 2; 4] ∨ ins = [0; 2; 4; 6]).
Proof.
  intros (ims & ins & vms & vns & Hrun & Hins).
  vm_compute in Hrun. injection Hrun as _ <- _ _. by destruct Hins.
Qed.

(** C4.  On [5, 0, 3, 0, 1] with [delta = 1] and windows of two samples the
    detector finds the peaks 0 and 2, the selector drops the peak on sample 0
    and keeps the interval (start 1, peak 2, stop 3); [SlopeMax] and
    [SlopeMean] pair the surviving start 1 with the dropped peak 0 and return
    −5, where the slope of the surviving interval is 3. *)
Theorem slope_pairs_start_with_dropped_peak :
  let kwargs := interval_kw (Real 1) (Real 2) (Real 2) in
  PeakDetection (delta_kw 1) leading_peak
  = (Return ([0; 2], [1], [Real 5; Real 3], [Real 0]), []) ∧
  PeakSelection {[ "idx_max" := VIdx [0; 2]; "pre_max" := VFloat (Real 2);
                   "post_max" := VFloat (Real 2) ]} leading_peak
  = (Return ([1], [3]), []) ∧
  slope leading_peak (1, 2) = (Return (Real 3), []) ∧
  slope leading_peak (1, 0) = (Return (Real (-5)), []) ∧
  run SlopeMax kwargs leading_peak = (Return (VFloat (Real (-5))), []) ∧
  run SlopeMean kwargs leading_peak = (Return (VFloat (Real (-5))), []).
Proof. by vm_compute. Qed.

(** C5.  For every [delta ≤ 0] supplied to an amplitude-group indicator,
    construction raises ParameterError: no indicator is built, and applying
    the constructor to any signal raises the same error without a scan (no
    diagnostic is reported, whatever the signal and the tools). *)
Theorem nonpositive_delta_rejected `{!Tools exact} (k : kind)
    (kwargs : gmap string (value exact)) (v : value exact) (q : Q)
    (signal : Signal exact) :
  amplitude_group k = true →
  kwargs !! "delta" = Some v → coerce float_t v = Some (Real q) → (q <= 0)%Q →
  construct k kwargs = (Raise (ParameterError "delta"), []) ∧
  run k kwargs signal = (Raise (ParameterError "delta"), []).
Proof.
  intros Hk Hkw Hv Hq. unfold run.
  assert (construct k kwargs = (Raise (ParameterError "delta"), [])) as ->; [|done].
  unfold construct, init. rewrite Hk.
  by rewrite (Peaks_init_invalid _ _ _ Hkw Hv (nonpositive_exact q Hq)).
Qed.

Lemma nonpositive_delta_rejected_witness :
  construct PeaksMax (delta_kw (-3 # 2)) = (Raise (ParameterError "delta"), []) ∧
  run PeaksMax (delta_kw (-3 # 2)) scenario1 = (Raise (ParameterError "delta"), []).
Proof.
  refine (@nonpositive_delta_rejected spec_tools PeaksMax (delta_kw (-3 # 2))
            (VFloat (Real (-3 # 2))) (-3 # 2) scenario1 _ _ _ _);
    [reflexivity..|]. by vm_compute.
Defined.

(** C6.  For every [delta > 0] and every signal, peak detection returns, and
    its index sequences [idx_maxs] and [idx_mins] are each strictly
    increasing, their lengths differ by at most 1, and they interleave: the
    k-th maximum lies before the k-th minimum, which lies before the
    (k+1)-th maximum. *)
Theorem PeakDetection_indices (delta : exact) (signal : Signal exact) :
  positive delta = true →
  ∃ ims ins vms vns,
    PeakDetection {[ "delta" := VFloat delta ]} signal = (Return (ims, ins, vms, vns), []) ∧
    StronglySorted lt ims ∧ StronglySorted lt ins ∧
    length ins ≤ length ims ≤ S (length ins) ∧
    interleaved ims ins.
Proof.
  intros Hpos. rewrite PeakDetection_positive by done.
  destruct (peak_scan delta (samples signal)) as [[[ims ins] vms] vns] eqn:Hscan.
  exists ims, ins, vms, vns. split; [done|].
  destruct (exact_peak_scan_inv _ _ _ _ _ _ Hpos Hscan) as (? & ? & ? & ? & _).
  done.
Qed.

Lemma PeakDetection_indices_witness :
  ∃ ims ins vms vns,
    PeakDetection {[ "delta" := VFloat (Real (3 # 2)) ]} scenario1
    = (Return (ims, ins, vms, vns), []) ∧
    StronglySorted lt ims ∧ StronglySorted lt ins ∧
    length ins ≤ length ims ≤ S (length ins) ∧
    interleaved ims ins.
Proof. apply (PeakDetection_indices (Real (3 # 2)) scenario1). reflexivity. Defined.

(** C7.  For the flat signal [1, 1, 1, 1, 1] and every [delta > 0], peak
    detection returns four empty sequences, and [PeaksMean] returns NaN with
    exactly one diagnostic report and no exception. *)
Theorem flat_signal_no_peak (delta fs : exact) :
  positive delta = true →
  PeakDetection {[ "delta" := VFloat delta ]} (flat fs) = (Return ([], [], [], []), []) ∧
  run PeaksMean {[ "delta" := VFloat delta ]} (flat fs)
  = (Return (VFloat NaN), ["No peak found"]).
Proof.
  intros Hpos.
  assert (peak_scan delta (samples (flat fs)) = ([], [], [], [])) as Hscan.
  { apply (peak_scan_flat delta (exact_lt_irrefl)
             (λ x, exact_lt_sub_self delta x Hpos) 5 (Real 1)). }
  split.
  - rewrite PeakDetection_positive by done. by rewrite Hscan.
  - by rewrite (amplitude_run_spec PeaksMean _ delta [] [] [] []).
Qed.

Lemma flat_signal_no_peak_witness :
  PeakDetection {[ "delta" := VFloat (Real (1 # 2)) ]} (flat (Real 4))
  = (Return ([], [], [], []), []) ∧
  run PeaksMean {[ "delta" := VFloat (Real (1 # 2)) ]} (flat (Real 4))
  = (Return (VFloat NaN), ["No peak found"]).
Proof. apply (flat_signal_no_peak (Real (1 # 2)) (Real 4)). reflexivity. Defined.

(** The three amplitude reductions on a detected peak set with at least one
    amplitude that is not NaN, whatever the detector is. *)
Lemma amplitude_with_peaks `{!Tools exact} (params : gmap string (value exact))
    (delta : value exact) (signal : Signal exact)
    (ims ins : list nat) (vms vns : list exact) (w : list string) (q0 : Q) :
  params !! "delta" = Some delta →
  _PeakDetection {[ "delta" := delta ]} signal = (Return (ims, ins, vms, vns), w) →
  length ims = length vms →
  Real q0 ∈ vms →
  ∃ mx mn av : Q,
    PeaksMax_algorithm signal params = (Return (VFloat (Real mx)), w) ∧
    PeaksMin_algorithm signal params = (Return (VFloat (Real mn)), w) ∧
    PeaksMean_algorithm signal params = (Return (VFloat (Real av)), w) ∧
    is_maximum mx (reals vms) ∧ is_minimum mn (reals vms) ∧
    (av == Qmean (reals vms))%Q.
Proof.
  intros Hd Hdet Hlen Hq0.
  destruct (nanmax_spec vms q0 Hq0) as (mx & Emx & Hmx).
  destruct (nanmin_spec vms q0 Hq0) as (mn & Emn & Hmn).
  destruct (nanmean_spec vms q0 Hq0) as (av & Eav & Hav).
  exists mx, mn, av.
  assert (length ims ≠ 0) as Hne.
  { rewrite Hlen. destruct vms; [by apply elem_of_nil in Hq0|done]. }
  change (PeaksMax_algorithm signal params) with (algorithm PeaksMax signal params).
  change (PeaksMin_algorithm signal params) with (algorithm PeaksMin signal params).
  change (PeaksMean_algorithm signal params) with (algorithm PeaksMean signal params).
  rewrite !(amplitude_algorithm_peaks _ signal params delta ims ins vms vns w) by done.
  unfold amplitude_reduce. rewrite Emx, Emn, Eav. simpl. by rewrite app_nil_r.
Qed.

(** The three amplitude indicators in exact arithmetic, whatever peak set
    the detector returns. *)
Lemma amplitude_agree_exact `{!Tools exact}
    (params : gmap string (value exact)) (delta : value exact)
    (signal : Signal exact) (ims ins : list nat) (vms vns : list exact)
    (w : list string) :
  params !! "delta" = Some delta →
  _PeakDetection {[ "delta" := delta ]} signal = (Return (ims, ins, vms, vns), w) →
  length ims = length vms →
  ∃ (mx mn av : exact) (w' : list string),
    PeaksMax_algorithm signal params = (Return (VFloat mx), w') ∧
    PeaksMin_algorithm signal params = (Return (VFloat mn), w') ∧
    PeaksMean_algorithm signal params = (Return (VFloat av), w') ∧
    (length ims = 0 → isnan mx = true) ∧
    (isnan mx = true ↔ isnan mn = true) ∧
    (isnan mn = true ↔ isnan av = true) ∧
    (isnan mx = false → exact_le mn av ∧ exact_le av mx).
Proof.
  intros Hd Hdet Hlen.
  destruct (decide (length ims = 0)) as [Hz|Hnz].
  { (* no maximum detected *)
    exists NaN, NaN, NaN, (w ++ ["No peak found"]).
    change (PeaksMax_algorithm signal params) with (algorithm PeaksMax signal params).
    change (PeaksMin_algorithm signal params) with (algorithm PeaksMin signal params).
    change (PeaksMean_algorithm signal params) with (algorithm PeaksMean signal params).
    rewrite !(amplitude_algorithm_no_peak _ signal params delta ims ins vms vns w)
      by done.
    by repeat split. }
  destruct (reals vms) as [|q0 l] eqn:Hr.
  - (* every detected amplitude is NaN *)
    destruct (nan_reductions_all_nan vms) as (Emx & Emn & Eav); [|done|].
    { intros ->. by rewrite Hlen in Hnz. }
    exists NaN, NaN, NaN, (w ++ []).
    change (PeaksMax_algorithm signal params) with (algorithm PeaksMax signal params).
    change (PeaksMin_algorithm signal params) with (algorithm PeaksMin signal params).
    change (PeaksMean_algorithm signal params) with (algorithm PeaksMean signal params).
    rewrite !(amplitude_algorithm_peaks _ signal params delta ims ins vms vns w)
      by done.
    unfold amplitude_reduce. rewrite Emx, Emn, Eav. by repeat split.
  - (* some detected amplitude is a number *)
    assert (Real q0 ∈ vms) as Hq0 by (apply elem_of_reals; rewrite Hr; left).
    destruct (amplitude_with_peaks params delta signal _ _ _ _ w q0 Hd Hdet Hlen Hq0)
      as (mx & mn & av & -> & -> & -> & [Hmx_in Hmx] & [Hmn_in Hmn] & Hav).
    exists (Real mx), (Real mn), (Real av), w. simpl.
    do 3 (split; [done|]). split; [done|].
    do 2 (split; [done|]). intros _.
    destruct (Qmean_between (reals vms) mn mx) as [H1 H2].
    + by rewrite Hr.
    + intros q Hq. split; [by apply Hmn|by apply Hmx].
    + rewrite <- Hav in H1, H2. done.
Qed.

(** C8, as amended.  For every signal and [delta], whatever peak set the
    detector returns for them, [PeaksMax], [PeaksMin] and [PeaksMean] return
    with the same diagnostics and are all NaN when no maximum is detected.
    On IEEE-754 doubles, [PeaksMax] is NaN exactly when [PeaksMin] is,
    [PeaksMean] is NaN whenever they are, and only then when the amplitudes
    are finite (fewer than eight of them, which numpy sums left to right);
    when they are not NaN, PeaksMin ≤ PeaksMax.  In exact arithmetic,
    moreover, PeaksMin ≤ PeaksMean ≤ PeaksMax. *)
Theorem amplitude_indicators_agree :
  (∀ (T : Tools float) (params : gmap string (value float)) (delta : value float)
     (signal : Signal float) (ims ins : list nat) (vms vns : list float)
     (w : list string),
     params !! "delta" = Some delta →
     @_PeakDetection float T {[ "delta" := delta ]} signal
     = (Return (ims, ins, vms, vns), w) →
     length ims = length vms →
     ∃ (mx mn av : float) (w' : list string),
       @PeaksMax_algorithm float _ T signal params = (Return (VFloat mx), w') ∧
       @PeaksMin_algorithm float _ T signal params = (Return (VFloat mn), w') ∧
       @PeaksMean_algorithm float _ T signal params = (Return (VFloat av), w') ∧
       (length ims = 0 → isnan mx = true) ∧
       (isnan mx = true ↔ isnan mn = true) ∧
       (isnan mn = true → isnan av = true) ∧
       (Forall (λ x, isnan x = true ∨ finite x = true) vms → length vms < 8 →
        isnan av = true → isnan mn = true) ∧
       (isnan mx = false → fle mn mx = true)) ∧
  (∀ (T : Tools exact) (params : gmap string (value exact)) (delta : value exact)
     (signal : Signal exact) (ims ins : list nat) (vms vns : list exact)
     (w : list string),
     params !! "delta" = Some delta →
     @_PeakDetection exact T {[ "delta" := delta ]} signal
     = (Return (ims, ins, vms, vns), w) →
     length ims = length vms →
     ∃ (mx mn av : exact) (w' : list string),
       @PeaksMax_algorithm exact _ T signal params = (Return (VFloat mx), w') ∧
       @PeaksMin_algorithm exact _ T signal params = (Return (VFloat mn), w') ∧
       @PeaksMean_algorithm exact _ T signal params = (Return (VFloat av), w') ∧
       (length ims = 0 → isnan mx = true) ∧
       (isnan mx = true ↔ isnan mn = true) ∧
       (isnan mn = true ↔ isnan av = true) ∧
       (isnan mx = false → exact_le mn av ∧ exact_le av mx)).
Proof.
  split.
  - intros T params delta signal ims ins vms vns w Hd Hdet Hlen.
    destruct (amplitude_order binary64_order_laws params delta signal ims ins vms vns
                w Hd Hdet Hlen)
      as (mx & mn & av & w' & Emx & Emn & Eav & H0 & H1 & H2 & H3 & H4).
    exists mx, mn, av, w'. do 6 (split; [done|]). split; [|done].
    intros Hfin Hlt Hav. destruct (isnan mn) eqn:E; [done|].
    destruct (H4 eq_refl) as [-> Hcount].
    by rewrite (nanmean_not_nan vms Hfin Hcount Hlt) in Hav.
  - intros T params delta signal ims ins vms vns w.
    apply amplitude_agree_exact.
Qed.

(** On the three peaks of amplitude 0.1 in binary64, and on scenario 1 in
    exact arithmetic. *)
Lemma amplitude_indicators_agree_witness :
  (∃ (mx mn av : float) (w' : list string),
     PeaksMax_algorithm tenths {[ "delta" := VFloat 0x1.999999999999ap-5%float ]}
     = (Return (VFloat mx), w') ∧
     PeaksMin_algorithm tenths {[ "delta" := VFloat 0x1.999999999999ap-5%float ]}
     = (Return (VFloat mn), w') ∧
     PeaksMean_algorithm tenths {[ "delta" := VFloat 0x1.999999999999ap-5%float ]}
     = (Return (VFloat av), w') ∧
     (length [1; 3; 5] = 0 → isnan mx = true) ∧
     (isnan mx = true ↔ isnan mn = true) ∧
     (isnan mn = true → isnan av = true) ∧
     (Forall (λ x, isnan x = true ∨ finite x = true)
             [0x1.999999999999ap-4; 0x1.999999999999ap-4; 0x1.999999999999ap-4]%float →
      length [0x1.999999999999ap-4; 0x1.999999999999ap-4; 0x1.999999999999ap-4]%float < 8 →
      isnan av = true → isnan mn = true) ∧
     (isnan mx = false → fle mn mx = true)) ∧
  (∃ (mx mn av : exact) (w' : list string),
     PeaksMax_algorithm scenario1 (delta_kw (3 # 2)) = (Return (VFloat mx), w') ∧
     PeaksMin_algorithm scenario1 (delta_kw (3 # 2)) = (Return (VFloat mn), w') ∧
     PeaksMean_algorithm scenario1 (delta_kw (3 # 2)) = (Return (VFloat av), w') ∧
     (length [1; 3; 5] = 0 → isnan mx = true) ∧
     (isnan mx = true ↔ isnan mn = true) ∧
     (isnan mn = true ↔ isnan av = true) ∧
     (isnan mx = false → exact_le mn av ∧ exact_le av mx)).
Proof.
  split.
  - exact (proj1 amplitude_indicators_agree spec_tools
             {[ "delta" := VFloat 0x1.999999999999ap-5%float ]}
             (VFloat 0x1.999999999999ap-5%float) tenths [1; 3; 5] [2; 4]
             [0x1.999999999999ap-4; 0x1.999999999999ap-4; 0x1.999999999999ap-4]%float
             [0; 0]%float [] eq_refl eq_refl eq_refl).
  - exact (proj2 amplitude_indicators_agree spec_tools (delta_kw (3 # 2))
             (VFloat (Real (3 # 2))) scenario1
             [1; 3; 5] [2; 4] [Real 2; Real 3; Real 5] [Real 0; Real 0] []
             eq_refl eq_refl eq_refl).
Defined.

(** C8, counterexample to the claim as stated, in binary64: on three peaks
    of amplitude 0.1 with [delta = 0.05], [PeaksMax] returns 0.1 and
    [PeaksMean] returns (0.1 + 0.1 + 0.1) / 3 = 0.10000000000000002, which is
    above the maximum. *)
Lemma binary64_mean_above_max :
  run PeaksMax {[ "delta" := VFloat 0x1.999999999999ap-5%float ]} tenths
  = (Return (VFloat 0x1.999999999999ap-4%float), []) ∧
  run PeaksMean {[ "delta" := VFloat 0x1.999999999999ap-5%float ]} tenths
  = (Return (VFloat 0x1.999999999999bp-4%float), []) ∧
  flt 0x1.999999999999ap-4%float 0x1.999999999999bp-4%float = true.
Proof. by vm_compute. Qed.

(** C8, the other half that doubles do not keep: the mean can be NaN by
    itself.  When the amplitudes reported are +∞ and −∞, [PeaksMax] and
    [PeaksMin] return them and [PeaksMean] returns their sum over 2, which
    is NaN. *)
Example binary64_mean_alone_NaN :
  let T := tools_reporting ([1; 3], [2], [infinity; neg_infinity], [0%float]) in
  let params : gmap string (value float) := {[ "delta" := VFloat 1%float ]} in
  @PeaksMax_algorithm float _ T tenths params = (Return (VFloat infinity), []) ∧
  @PeaksMin_algorithm float _ T tenths params = (Return (VFloat neg_infinity), []) ∧
  @PeaksMean_algorithm float _ T tenths params = (Return (VFloat PrimFloat.nan), []).
Proof. by vm_compute. Qed.

(** C9, as amended.  On every signal whose detected-maxima amplitudes
    [val_maxs] hold at least one value that is not NaN, whatever the detector
    is, [PeaksMax] returns the greatest and [PeaksMin] the least of the
    amplitudes that are not NaN.  On IEEE-754 doubles [PeaksMean] returns the
    mean of the amplitudes that are not NaN as doubles compute it (summed left
    to right, as numpy does below eight entries, then divided by their
    number), up to the sign of a zero.  In exact arithmetic that is their
    mean. *)
Theorem amplitude_reductions_skip_NaN :
  (∀ (T : Tools float) (params : gmap string (value float)) (delta : value float)
     (signal : Signal float) (ims ins : list nat) (vms vns : list float)
     (w : list string),
     params !! "delta" = Some delta →
     @_PeakDetection float T {[ "delta" := delta ]} signal
     = (Return (ims, ins, vms, vns), w) →
     length ims = length vms →
     (∃ x, x ∈ vms ∧ isnan x = false) →
     ∃ mx mn av : float,
       @PeaksMax_algorithm float _ T signal params = (Return (VFloat mx), w) ∧
       @PeaksMin_algorithm float _ T signal params = (Return (VFloat mn), w) ∧
       @PeaksMean_algorithm float _ T signal params = (Return (VFloat av), w) ∧
       is_greatest mx (numbers vms) ∧ is_least mn (numbers vms) ∧
       (length vms < 8 → same_double av (mean (numbers vms)))) ∧
  (∀ (T : Tools exact) (params : gmap string (value exact)) (delta : value exact)
     (signal : Signal exact) (ims ins : list nat) (vms vns : list exact)
     (w : list string),
     params !! "delta" = Some delta →
     @_PeakDetection exact T {[ "delta" := delta ]} signal
     = (Return (ims, ins, vms, vns), w) →
     length ims = length vms →
     (∃ x, x ∈ vms ∧ isnan x = false) →
     ∃ mx mn av : Q,
       @PeaksMax_algorithm exact _ T signal params = (Return (VFloat (Real mx)), w) ∧
       @PeaksMin_algorithm exact _ T signal params = (Return (VFloat (Real mn)), w) ∧
       @PeaksMean_algorithm exact _ T signal params = (Return (VFloat (Real av)), w) ∧
       is_maximum mx (reals vms) ∧ is_minimum mn (reals vms) ∧
       (av == Qmean (reals vms))%Q).
Proof.
  split.
  - intros T params delta signal ims ins vms vns w Hd Hdet Hlen (x0 & Hin & Hnum).
    destruct (amplitude_numbers binary64_order_laws params delta signal ims ins vms vns
                w x0 Hd Hdet Hlen Hin Hnum) as (mx & mn & Emx & Emn & Eav & Hmx & Hmn).
    exists mx, mn, (nanmean vms). do 5 (split; [done|]).
    intros _. apply binary64_nanmean_numbers.
  - intros T params delta signal ims ins vms vns w Hd Hdet Hlen ([|q0] & Hin & Hx);
      [done|].
    by apply (amplitude_with_peaks params delta signal ims ins vms vns w q0).
Qed.

(** A detector that reports the second of three amplitudes as NaN: in
    binary64 and in exact arithmetic the three indicators pass over it. *)
Lemma amplitude_reductions_skip_NaN_witness :
  (∃ mx mn av : float,
     @PeaksMax_algorithm float _
       (tools_reporting ([1; 3; 5], [2; 4], [2; PrimFloat.nan; 5]%float, [0; 0]%float))
       tenths {[ "delta" := VFloat 1%float ]} = (Return (VFloat mx), []) ∧
     @PeaksMin_algorithm float _
       (tools_reporting ([1; 3; 5], [2; 4], [2; PrimFloat.nan; 5]%float, [0; 0]%float))
       tenths {[ "delta" := VFloat 1%float ]} = (Return (VFloat mn), []) ∧
     @PeaksMean_algorithm float _
       (tools_reporting ([1; 3; 5], [2; 4], [2; PrimFloat.nan; 5]%float, [0; 0]%float))
       tenths {[ "delta" := VFloat 1%float ]} = (Return (VFloat av), []) ∧
     is_greatest mx (numbers [2; PrimFloat.nan; 5]%float) ∧
     is_least mn (numbers [2; PrimFloat.nan; 5]%float) ∧
     (length [2; PrimFloat.nan; 5]%float < 8 →
      same_double av (mean (numbers [2; PrimFloat.nan; 5]%float)))) ∧
  (∃ mx mn av : Q,
     @PeaksMax_algorithm exact _
       (tools_reporting ([1; 3; 5], [2; 4], [Real 2; NaN; Real 5], [Real 0; Real 0]))
       scenario1 (delta_kw 1) = (Return (VFloat (Real mx)), []) ∧
     @PeaksMin_algorithm exact _
       (tools_reporting ([1; 3; 5], [2; 4], [Real 2; NaN; Real 5], [Real 0; Real 0]))
       scenario1 (delta_kw 1) = (Return (VFloat (Real mn)), []) ∧
     @PeaksMean_algorithm exact _
       (tools_reporting ([1; 3; 5], [2; 4], [Real 2; NaN; Real 5], [Real 0; Real 0]))
       scenario1 (delta_kw 1) = (Return (VFloat (Real av)), []) ∧
     is_maximum mx (reals [Real 2; NaN; Real 5]) ∧
     is_minimum mn (reals [Real 2; NaN; Real 5]) ∧
     (av == Qmean (reals [Real 2; NaN; Real 5]))%Q).
Proof.
  split.
  - refine (proj1 amplitude_reductions_skip_NaN
              (tools_reporting ([1; 3; 5], [2; 4], [2; PrimFloat.nan; 5]%float, [0; 0]%float))
              {[ "delta" := VFloat 1%float ]} (VFloat 1%float) tenths
              [1; 3; 5] [2; 4] [2; PrimFloat.nan; 5]%float [0; 0]%float []
              eq_refl eq_refl eq_refl _).
    exists 2%float. split; [left|reflexivity].
  - refine (proj2 amplitude_reductions_skip_NaN
              (tools_reporting ([1; 3; 5], [2; 4], [Real 2; NaN; Real 5], [Real 0; Real 0]))
              (delta_kw 1) (VFloat (Real 1)) scenario1
              [1; 3; 5] [2; 4] [Real 2; NaN; Real 5] [Real 0; Real 0] []
              eq_refl eq_refl eq_refl _).
    exists (Real 2). split; [left|reflexivity].
Defined.

(** C9, counterexample to the claim as stated, in binary64: the two
    amplitudes detected on [huge] are both the largest finite double, and so
    is their mean; [PeaksMean] returns +∞, the sum having overflowed. *)
Lemma binary64_mean_overflows :
  run PeaksMax {[ "delta" := VFloat 1%float ]} huge
  = (Return (VFloat 0x1.fffffffffffffp1023%float), []) ∧
  run PeaksMin {[ "delta" := VFloat 1%float ]} huge
  = (Return (VFloat 0x1.fffffffffffffp1023%float), []) ∧
  run PeaksMean {[ "delta" := VFloat 1%float ]} huge
  = (Return (VFloat infinity), []).
Proof. by vm_compute. Qed.

(** The reductions skip NaN entries wherever they stand in the array. *)
Example nan_reductions_example :
  nanmax [NaN; Real 2; NaN; Real 5; Real 3] = (Return (Real 5), []) ∧
  nanmin [NaN; Real 2; NaN; Real 5; Real 3] = (Return (Real 2), []) ∧
  nanmean [NaN; Real 2; NaN; Real 5; Real 3] = Real (10 # 3).
Proof. by vm_compute. Qed.

(* ===================================================================== *)
(** ** The pyHRV package import: claim C10 *)

Section PyHRVImports.
Import PyHRV.
Variable env : string → option namespace.

Lemma exec_app load (p1 p2 : list stmt) (ns : namespace) :
  exec load (p1 ++ p2) ns
  = match exec load p1 ns with
    | Return ns' => exec load p2 ns'
    | Raise e => Raise e
    end.
Proof.
  revert ns. induction p1 as [|s p1 IH]; intros ns; simpl; [done|].
  by destruct (exec_stmt load s ns).
Qed.

(** What [Files.py] binds when its own imports succeed. *)
Lemma Files_namespace (m : namespace) :
  load_submodule env "pyHRV.Files" = Return m →
  m = mkNamespace
        ["load_rr_from_bvp"; "load_rr_from_ecg"; "load_rr_data_series";
         "save_data_series"; "load_data_series"; "__all__"; "Sett";
         "peak_detection"; "DataSeries"; "pd"; "np"]
        (Some ["load_rr_data_series"; "save_rr_data_series"]).
Proof.
  unfold load_submodule. rewrite decide_True by done.
  unfold Files_py, exec, exec_stmt, load_other, copy_names.
  repeat case_match; try discriminate. simplify_eq. by intros [= <-].
Qed.

Lemma Files_star_import (m ns : namespace) :
  load_submodule env "pyHRV.Files" = Return m →
  exec_stmt (load_submodule env) (FromImportStar "pyHRV.Files") ns
  = Raise (AttributeError "save_rr_data_series").
Proof.
  intros Hm. pose proof (Files_namespace m Hm) as ->.
  unfold exec_stmt. by rewrite Hm.
Qed.

Lemma Files_import_load_rr (m ns : namespace) :
  load_submodule env "pyHRV.Files" = Return m →
  exec_stmt (load_submodule env) (FromImport "pyHRV.Files" ["load_rr"; "save_data_series"]) ns
  = Raise (ImportError "load_rr").
Proof.
  intros Hm. pose proof (Files_namespace m Hm) as ->.
  unfold exec_stmt. by rewrite Hm.
Qed.

Lemma init_prefix_loads_Files (ns : namespace) :
  exec (load_submodule env) init_before_Files_star empty_namespace = Return ns →
  ∃ m, load_submodule env "pyHRV.Files" = Return m.
Proof.
  unfold init_before_Files_star. simpl.
  destruct (load_submodule env "pyHRV.Files") as [m|e]; [by exists m|done].
Qed.

Lemma import_pyHRV_after_prefix (ns : namespace) :
  exec (load_submodule env) init_before_Files_star empty_namespace = Return ns →
  import_pyHRV env = Raise (AttributeError "save_rr_data_series").
Proof.
  intros Hpre. destruct (init_prefix_loads_Files ns Hpre) as [m Hm].
  unfold import_pyHRV, init_py. rewrite exec_app, Hpre.
  cbn [exec app]. by rewrite (Files_star_import m ns Hm).
Qed.

Lemma import_pyHRV_raises : ∃ e, import_pyHRV env = Raise e.
Proof.
  destruct (exec (load_submodule env) init_before_Files_star empty_namespace)
    as [ns|e] eqn:Hpre.
  - eexists. by apply (import_pyHRV_after_prefix ns).
  - exists e. unfold import_pyHRV, init_py. by rewrite exec_app, Hpre.
Qed.

End PyHRVImports.

(** C10.  Importing the pyHRV package always fails.  [Files.__all__] lists
    [save_rr_data_series], which [Files.py] never defines (it defines
    [save_data_series]); so whatever the other modules are, the import ends
    in an exception, and it is the AttributeError of [from Files import *]
    whenever the statements before it succeed.  [GalaxyFilter] asks
    [pyHRV.Files] for [load_rr], which that module does not define either,
    and its import fails as well. *)
Theorem pyHRV_import_fails (env : string → option PyHRV.namespace) :
  (∀ m, PyHRV.load_submodule env "pyHRV.Files" = Return m →
        PyHRV.dunder_all m = Some ["load_rr_data_series"; "save_rr_data_series"] ∧
        PyHRV.defines m "save_rr_data_series" = false ∧
        PyHRV.defines m "save_data_series" = true ∧
        PyHRV.defines m "load_rr" = false) ∧
  (∃ e, PyHRV.import_pyHRV env = Raise e) ∧
  (∀ ns, PyHRV.exec (PyHRV.load_submodule env) PyHRV.init_before_Files_star
           PyHRV.empty_namespace = Return ns →
         PyHRV.import_pyHRV env = Raise (AttributeError "save_rr_data_series")) ∧
  (∃ e, PyHRV.import_GalaxyFilter env = Raise e) ∧
  (∀ m ns, PyHRV.load_submodule env "pyHRV.Files" = Return m →
           PyHRV.exec_stmt (PyHRV.load_submodule env)
             (PyHRV.FromImport "pyHRV.Files" ["load_rr"; "save_data_series"]) ns
           = Raise (ImportError "load_rr")).
Proof.
  split; [|split; [|split; [|split]]].
  - intros m Hm. by rewrite (Files_namespace env m Hm).
  - apply import_pyHRV_raises.
  - apply import_pyHRV_after_prefix.
  - destruct (import_pyHRV_raises env) as [e He]. exists e.
    unfold PyHRV.import_GalaxyFilter, PyHRV.GalaxyFilter_py, PyHRV.load_from_outside.
    simpl. by rewrite He.
  - apply Files_import_load_rr.
Qed.

(** When every other module imports, the package import reaches the star
    import of [Files] and fails there. *)
Example pyHRV_import_friendly :
  (∃ ns, PyHRV.exec (PyHRV.load_submodule PyHRV.friendly) PyHRV.init_before_Files_star
           PyHRV.empty_namespace = Return ns) ∧
  PyHRV.import_pyHRV PyHRV.friendly = Raise (AttributeError "save_rr_data_series") ∧
  PyHRV.import_GalaxyFilter PyHRV.friendly = Raise (AttributeError "save_rr_data_series").
Proof. split; [eexists; by vm_compute|by vm_compute]. Qed.

(* ===================================================================== *)
(** ** Further properties of the nine algorithms *)

Lemma Py_bind_Raise {A B} (e : exn) (w : list string) (f : A → Py B) :
  (Raise e, w) ≫= f = (Raise e, w).
Proof. done. Qed.

Section Algorithms.
Context {F : Type} `{!Number F, !Tools F}.
Implicit Types (signal : Signal F) (params : gmap string (value F)).

Lemma getitem_Some params key v : params !! key = Some v → getitem params key = mret v.
Proof. intros E. unfold getitem. by rewrite E. Qed.

Lemma getitem_None params key :
  params !! key = None → getitem params key = raise (KeyError key).
Proof. intros E. unfold getitem. by rewrite E. Qed.

Ltac algorithm_unfold :=
  unfold algorithm, PeaksMax_algorithm, PeaksMin_algorithm, PeaksMean_algorithm,
    PeaksNum_algorithm, DurationMin_algorithm, DurationMax_algorithm,
    DurationMean_algorithm, SlopeMin_algorithm, SlopeMax_algorithm,
    SlopeMean_algorithm.

(** Replace every [params[key]] whose value is known. *)
Ltac read_params :=
  repeat match goal with
  | H : ?p !! ?x = Some ?v |- context [getitem ?p ?x] => rewrite (getitem_Some p x v H)
  end;
  py_simpl.

(** Split [first_missing params keys = None] into the lookups it stands for. *)
Ltac keys_present H :=
  simpl in H;
  repeat match type of H with
  | match ?p !! ?x with _ => _ end = _ =>
      destruct (p !! x) eqn:?; [|discriminate H]
  end.

(** X1.  Each of the nine algorithms raises [KeyError] on the first key it
    reads that [params] lacks, before it calls any tool and without a
    diagnostic. *)
Theorem algorithm_missing_key (k : kind) signal params (key : string) :
  first_missing params (keys_read k) = Some key →
  algorithm k signal params = (Raise (KeyError key), []).
Proof.
  intros Hmiss.
  destruct k; simpl in Hmiss; algorithm_unfold;
    repeat match type of Hmiss with
    | match params !! ?x with _ => _ end = _ =>
        let E := fresh "E" in
        destruct (params !! x) eqn:E;
        [rewrite (getitem_Some _ _ _ E); py_simpl
        |injection Hmiss as <-; by rewrite (getitem_None _ _ E)]
    end; done.
Qed.

(** X2.  An algorithm depends on [params] only through the keys it reads: two
    parameter maps that agree on them give the same result and the same
    diagnostics.  So the duration indicators and [SlopeMin] are blind to
    [pre_max] and [post_max], the windows their descriptors declare. *)
Theorem algorithm_reads_only (k : kind) signal (params1 params2 : gmap string (value F)) :
  (∀ key, key ∈ keys_read k → params1 !! key = params2 !! key) →
  algorithm k signal params1 = algorithm k signal params2.
Proof.
  intros Hagree.
  destruct k; algorithm_unfold; unfold getitem;
    repeat match goal with
    | |- context [params1 !! ?x] =>
        rewrite (Hagree x) by (simpl; rewrite !elem_of_cons; auto 6)
    end; done.
Qed.

(** X3.  An exception of the detector leaves each of the nine algorithms
    unchanged, with the diagnostics the detector had reported; the algorithm
    adds none. *)
Theorem detector_error_propagates (k : kind) signal params (d : value F)
    (e : exn) (w : list string) :
  first_missing params (keys_read k) = None →
  params !! "delta" = Some d →
  _PeakDetection {[ "delta" := d ]} signal = (Raise e, w) →
  algorithm k signal params = (Raise e, w).
Proof.
  intros Hmiss Hd Hdet.
  destruct k; simpl in Hmiss; rewrite Hd in Hmiss; keys_present Hmiss;
    algorithm_unfold; read_params; by rewrite Hdet.
Qed.

(** X4.  [PeaksNum] never returns the count 0: what it returns is NaN or a
    positive integer. *)
Theorem PeaksNum_never_zero signal params (v : value F) (w : list string) :
  PeaksNum_algorithm signal params = (Return v, w) →
  v = VFloat nan ∨ ∃ n : Z, v = VInt n ∧ (0 < n)%Z.
Proof.
  unfold PeaksNum_algorithm, getitem.
  destruct (params !! "delta") as [d|]; [|discriminate]. py_simpl.
  destruct (_PeakDetection _ signal) as [[[[[ims ins] vms] vns]|e] w1];
    [|discriminate].
  rewrite Py_bind_return. case_decide as Hlen; simpl.
  - intros [= <- _]. by left.
  - intros [= <- _]. right. eexists. split; [done|]. lia.
Qed.

(** X5.  An amplitude indicator does not raise once the detector has returned
    a peak set whose amplitudes run parallel to its indices; to the
    detector's diagnostics it adds "No peak found" when there is no maximum
    and nothing otherwise. *)
Theorem amplitude_indicators_return (k : kind) signal params (d : value F)
    (ims ins : list nat) (vms vns : list F) (w : list string) :
  amplitude_group k = true →
  params !! "delta" = Some d →
  _PeakDetection {[ "delta" := d ]} signal = (Return (ims, ins, vms, vns), w) →
  length vms = length ims →
  ∃ v, algorithm k signal params
       = (Return v, w ++ if decide (length ims = 0) then ["No peak found"] else []).
Proof.
  intros Hk Hd Hdet Hlen. case_decide as Hz.
  - eexists. by apply (amplitude_algorithm_no_peak k signal params d ims ins vms vns).
  - rewrite (amplitude_algorithm_peaks k signal params d ims ins vms vns w) by done.
    destruct vms as [|x vms]; [simpl in Hlen; lia|].
    destruct k; try discriminate Hk; by eexists.
Qed.

(** The six interval algorithms are one pipeline: read three keys, detect,
    select, measure, reduce. *)
Lemma interval_algorithm (k : kind) signal params (d a b : value F)
    (ims ins : list nat) (vms vns : list F) (w1 : list string)
    (starts stops : list nat) (w2 : list string) :
  amplitude_group k = false →
  params !! "delta" = Some d →
  params !! (window_keys k).1 = Some a → params !! (window_keys k).2 = Some b →
  _PeakDetection {[ "delta" := d ]} signal = (Return (ims, ins, vms, vns), w1) →
  length ims ≠ 0 →
  _PeakSelection {[ "idx_max" := VIdx ims; (selector_keywords k).1 := a;
                   (selector_keywords k).2 := b ]} signal
  = (Return (starts, stops), w2) →
  algorithm k signal params
  = if decide (length starts = 0)
    then (Return (VFloat nan),
          w1 ++ w2 ++ ["Unable to detect the start of the peaks"])
    else
      let r := measure k starts stops ims signal ≫= interval_reduce k in
      (r.1, w1 ++ w2 ++ r.2).
Proof.
  intros Hk Hd Ha Hb Hdet Hlen Hsel.
  destruct k; try discriminate Hk; simpl in Ha, Hb, Hsel; unfold measure; simpl;
    algorithm_unfold; read_params; rewrite Hdet, Py_bind_return;
    rewrite decide_False by done; rewrite Hsel, Py_bind_return;
    case_decide; simpl; done.
Qed.

(** X6.  An interval indicator whose detector finds no maximum returns NaN
    and adds "No peaks found" to the detector's diagnostics; it calls neither
    the selector nor the duration or slope tool. *)
Theorem interval_no_peaks (k : kind) signal params (d : value F)
    (ims ins : list nat) (vms vns : list F) (w : list string) :
  amplitude_group k = false →
  first_missing params (keys_read k) = None →
  params !! "delta" = Some d →
  _PeakDetection {[ "delta" := d ]} signal = (Return (ims, ins, vms, vns), w) →
  length ims = 0 →
  algorithm k signal params = (Return (VFloat nan), w ++ ["No peaks found"]).
Proof.
  intros Hk Hmiss Hd Hdet Hlen.
  destruct k; try discriminate Hk; simpl in Hmiss; rewrite Hd in Hmiss;
    keys_present Hmiss; algorithm_unfold; read_params;
    rewrite Hdet, Py_bind_return; by rewrite decide_True by done.
Qed.

(** X7.  An interval indicator whose selector keeps no peak returns NaN and
    adds "Unable to detect the start of the peaks" to the diagnostics of the
    detector and the selector; it does not call the duration or slope tool. *)
Theorem interval_no_start (k : kind) signal params (d a b : value F)
    (ims ins : list nat) (vms vns : list F) (w1 : list string)
    (starts stops : list nat) (w2 : list string) :
  amplitude_group k = false →
  params !! "delta" = Some d →
  params !! (window_keys k).1 = Some a → params !! (window_keys k).2 = Some b →
  _PeakDetection {[ "delta" := d ]} signal = (Return (ims, ins, vms, vns), w1) →
  length ims ≠ 0 →
  _PeakSelection {[ "idx_max" := VIdx ims; (selector_keywords k).1 := a;
                   (selector_keywords k).2 := b ]} signal
  = (Return (starts, stops), w2) →
  length starts = 0 →
  algorithm k signal params
  = (Return (VFloat nan), w1 ++ w2 ++ ["Unable to detect the start of the peaks"]).
Proof.
  intros Hk Hd Ha Hb Hdet Hlen Hsel Hz.
  rewrite (interval_algorithm k signal params d a b ims ins vms vns w1 starts stops w2)
    by done.
  by rewrite decide_True by done.
Qed.

(** X8.  An interval indicator whose three tools return, the last one with at
    least one duration or slope, returns a float, does not raise, and reports
    the diagnostics of the three tools in the order of the calls, adding
    none. *)
Theorem interval_indicators_return (k : kind) signal params (d a b : value F)
    (ims ins : list nat) (vms vns : list F) (w1 : list string)
    (starts stops : list nat) (w2 : list string) (xs : list F) (w3 : list string) :
  amplitude_group k = false →
  params !! "delta" = Some d →
  params !! (window_keys k).1 = Some a → params !! (window_keys k).2 = Some b →
  _PeakDetection {[ "delta" := d ]} signal = (Return (ims, ins, vms, vns), w1) →
  length ims ≠ 0 →
  _PeakSelection {[ "idx_max" := VIdx ims; (selector_keywords k).1 := a;
                   (selector_keywords k).2 := b ]} signal
  = (Return (starts, stops), w2) →
  length starts ≠ 0 →
  measure k starts stops ims signal = (Return xs, w3) →
  xs ≠ [] →
  ∃ x, algorithm k signal params = (Return (VFloat x), w1 ++ w2 ++ w3).
Proof.
  intros Hk Hd Ha Hb Hdet Hlen Hsel Hnz Hm Hxs.
  rewrite (interval_algorithm k signal params d a b ims ins vms vns w1 starts stops w2)
    by done.
  rewrite decide_False by done. rewrite Hm, Py_bind_return. cbv zeta.
  destruct xs as [|x xs]; [done|].
  destruct k; try discriminate Hk; simpl; rewrite app_nil_r; by eexists.
Qed.

End Algorithms.

Lemma Py_bind_ext {A B} (m : Py A) (f g : A → Py B) :
  (∀ a, f a = g a) → m ≫= f = m ≫= g.
Proof. intros H. destruct m as [[a|e] w]; [|done]. unfold mbind, Py_bind. by rewrite H. Qed.

(** X9.  What an algorithm returns depends only on the tools it calls: the
    detector for all nine, the selector for the interval group, the duration
    tool for the duration indicators and the slope tool for the slope
    indicators.  So an amplitude indicator never calls the selector, and a
    duration indicator never calls the slope tool. *)
Theorem algorithm_calls_only {F : Type} `{!Number F} (T1 T2 : Tools F) (k : kind)
    (signal : Signal F) (params : gmap string (value F)) :
  same_tools_for k T1 T2 →
  @algorithm F _ T1 k signal params = @algorithm F _ T2 k signal params.
Proof.
  intros (Hdet & Hsel & Hdur & Hslo).
  destruct k; simpl in Hsel, Hdur, Hslo;
    first [specialize (Hsel eq_refl) | clear Hsel];
    first [specialize (Hdur eq_refl) | clear Hdur];
    first [specialize (Hslo eq_refl) | clear Hslo];
    unfold algorithm, PeaksMax_algorithm, PeaksMin_algorithm, PeaksMean_algorithm,
      PeaksNum_algorithm, DurationMin_algorithm, DurationMax_algorithm,
      DurationMean_algorithm, SlopeMin_algorithm, SlopeMax_algorithm,
      SlopeMean_algorithm;
    repeat first
      [ done | rewrite Hdet | rewrite Hsel | rewrite Hdur | rewrite Hslo
      | case_decide
      | apply Py_bind_ext; intros ?; repeat case_match ].
Qed.

(** X10.  Whatever the tools are, on numbers that keep the order laws (IEEE
    doubles and exact numbers do): when the three tools return, with one
    duration for each selected peak, [DurationMin], [DurationMean] and
    [DurationMax] return with the same diagnostics; [DurationMax] is NaN
    exactly when [DurationMin] is, [DurationMean] is NaN whenever they are,
    and otherwise DurationMin ≤ DurationMax. *)
Theorem duration_indicators_agree {F : Type} `{!Number F, !Leq F, !Tools F}
    (params : gmap string (value F)) (d a b : value F)
    (signal : Signal F) (ims ins : list nat) (vms vns : list F)
    (w1 : list string) (starts stops : list nat) (w2 : list string)
    (ds : list F) (w3 : list string) :
  OrderLaws F →
  params !! "delta" = Some d →
  params !! "win_pre" = Some a → params !! "win_post" = Some b →
  _PeakDetection {[ "delta" := d ]} signal = (Return (ims, ins, vms, vns), w1) →
  length ims ≠ 0 →
  _PeakSelection {[ "idx_max" := VIdx ims; "win_pre" := a; "win_post" := b ]} signal
  = (Return (starts, stops), w2) →
  length starts ≠ 0 →
  _Durations {[ "starts" := VIdx starts; "stops" := VIdx stops ]} signal
  = (Return ds, w3) →
  length ds = length starts →
  ∃ mx mn av : F,
    DurationMax_algorithm signal params = (Return (VFloat mx), w1 ++ w2 ++ w3) ∧
    DurationMin_algorithm signal params = (Return (VFloat mn), w1 ++ w2 ++ w3) ∧
    DurationMean_algorithm signal params = (Return (VFloat av), w1 ++ w2 ++ w3) ∧
    (isnan mx = true ↔ isnan mn = true) ∧
    (isnan mn = true → isnan av = true) ∧
    (isnan mx = false → fle mn mx = true).
Proof.
  intros laws Hd Ha Hb Hdet Hlen Hsel Hnz Hdur Hds.
  assert (ds ≠ []) as Hne by (intros ->; simpl in Hds; lia).
  destruct (nan_reductions_order laws ds Hne)
    as (mx & mn & Emx & Emn & H1 & H2 & H3 & _).
  exists mx, mn, (nanmean ds).
  change (DurationMax_algorithm signal params) with (algorithm DurationMax signal params).
  change (DurationMin_algorithm signal params) with (algorithm DurationMin signal params).
  change (DurationMean_algorithm signal params) with (algorithm DurationMean signal params).
  rewrite (interval_algorithm DurationMax signal params d a b ims ins vms vns w1
             starts stops w2), (interval_algorithm DurationMin signal params d a b
             ims ins vms vns w1 starts stops w2), (interval_algorithm DurationMean
             signal params d a b ims ins vms vns w1 starts stops w2) by done.
  rewrite !decide_False by done. unfold measure. simpl.
  rewrite Hdur, !Py_bind_return. unfold interval_reduce.
  rewrite Emx, Emn. simpl. rewrite app_nil_r. done.
Qed.

(** X11.  Whatever the tools are, on numbers that keep the order laws (IEEE
    doubles and exact numbers do): on a parameter map that holds the same
    windows under [win_pre], [win_post] (read by [SlopeMin]) and under
    [pre_max], [post_max] (read by [SlopeMax] and [SlopeMean]), when the three
    tools return, with at least one slope, the three slope indicators return
    with the same diagnostics; [SlopeMax] is NaN exactly when [SlopeMin] is,
    [SlopeMean] is NaN whenever they are, and otherwise SlopeMin ≤ SlopeMax. *)
Theorem slope_indicators_agree {F : Type} `{!Number F, !Leq F, !Tools F}
    (params : gmap string (value F)) (d a b : value F)
    (signal : Signal F) (ims ins : list nat) (vms vns : list F)
    (w1 : list string) (starts stops : list nat) (w2 : list string)
    (sl : list F) (w3 : list string) :
  OrderLaws F →
  params !! "delta" = Some d →
  params !! "win_pre" = Some a → params !! "win_post" = Some b →
  params !! "pre_max" = Some a → params !! "post_max" = Some b →
  _PeakDetection {[ "delta" := d ]} signal = (Return (ims, ins, vms, vns), w1) →
  length ims ≠ 0 →
  _PeakSelection {[ "idx_max" := VIdx ims; "pre_max" := a; "post_max" := b ]} signal
  = (Return (starts, stops), w2) →
  length starts ≠ 0 →
  _Slopes {[ "starts" := VIdx starts; "peaks" := VIdx ims ]} signal = (Return sl, w3) →
  sl ≠ [] →
  ∃ mx mn av : F,
    SlopeMax_algorithm signal params = (Return (VFloat mx), w1 ++ w2 ++ w3) ∧
    SlopeMin_algorithm signal params = (Return (VFloat mn), w1 ++ w2 ++ w3) ∧
    SlopeMean_algorithm signal params = (Return (VFloat av), w1 ++ w2 ++ w3) ∧
    (isnan mx = true ↔ isnan mn = true) ∧
    (isnan mn = true → isnan av = true) ∧
    (isnan mx = false → fle mn mx = true).
Proof.
  intros laws Hd Ha Hb Ha' Hb' Hdet Hlen Hsel Hnz Hslo Hne.
  destruct (nan_reductions_order laws sl Hne)
    as (mx & mn & Emx & Emn & H1 & H2 & H3 & _).
  exists mx, mn, (nanmean sl).
  change (SlopeMax_algorithm signal params) with (algorithm SlopeMax signal params).
  change (SlopeMin_algorithm signal params) with (algorithm SlopeMin signal params).
  change (SlopeMean_algorithm signal params) with (algorithm SlopeMean signal params).
  rewrite (interval_algorithm SlopeMax signal params d a b ims ins vms vns w1
             starts stops w2), (interval_algorithm SlopeMin signal params d a b
             ims ins vms vns w1 starts stops w2), (interval_algorithm SlopeMean
             signal params d a b ims ins vms vns w1 starts stops w2) by done.
  rewrite !decide_False by done. unfold measure. simpl.
  rewrite Hslo, !Py_bind_return. unfold interval_reduce.
  rewrite Emx, Emn. simpl. rewrite app_nil_r. done.
Qed.

(** X13.  The duration indicators hand their windows to the selector under
    the keywords [win_pre] and [win_post], never under [pre_max] and
    [post_max]: with a selector that raises when it is built without
    [pre_max], each of them raises as soon as the detector has found a
    maximum, whatever [params] holds. *)
Theorem duration_selector_keywords {F : Type} `{!Number F, !Tools F} (k : kind)
    (signal : Signal F) (params : gmap string (value F)) (d a b : value F)
    (ims ins : list nat) (vms vns : list F) (w1 : list string) :
  duration_group k = true →
  params !! "delta" = Some d →
  params !! "win_pre" = Some a → params !! "win_post" = Some b →
  _PeakDetection {[ "delta" := d ]} signal = (Return (ims, ins, vms, vns), w1) →
  length ims ≠ 0 →
  (∀ kwargs, kwargs !! "pre_max" = None →
             ∃ e w, _PeakSelection kwargs signal = (Raise e, w)) →
  ∃ e w, algorithm k signal params = (Raise e, w).
Proof.
  intros Hk Hd Ha Hb Hdet Hlen Hsel.
  destruct (Hsel {[ "idx_max" := VIdx ims; "win_pre" := a; "win_post" := b ]})
    as (e & w2 & Hraise).
  { by rewrite !lookup_insert_ne, lookup_singleton_ne. }
  exists e, (w1 ++ w2).
  destruct k; try discriminate Hk;
    unfold algorithm, DurationMin_algorithm, DurationMax_algorithm,
      DurationMean_algorithm, getitem;
    rewrite Hd, Ha, Hb; py_simpl; rewrite Hdet, Py_bind_return;
    rewrite decide_False by done; by rewrite Hraise.
Qed.

(* ===================================================================== *)
(** ** The further properties on concrete signals *)

Lemma algorithm_missing_key_witness :
  algorithm SlopeMax scenario1 {[ "delta" := VFloat (Real 1); "post_max" := VFloat (Real 1) ]}
  = (Raise (KeyError "pre_max"), []).
Proof.
  exact (@algorithm_missing_key exact _ spec_tools SlopeMax scenario1
           {[ "delta" := VFloat (Real 1); "post_max" := VFloat (Real 1) ]}
           "pre_max" eq_refl).
Defined.

(** [DurationMin] gives the same on scenario 1 when [pre_max] is changed. *)
Lemma algorithm_reads_only_witness :
  @algorithm exact _ win_tools DurationMin scenario1 (window_kw 1 2 2)
  = @algorithm exact _ win_tools DurationMin scenario1
      (<["pre_max" := VFloat (Real 7)]> (window_kw 1 2 2)).
Proof.
  refine (@algorithm_reads_only exact _ win_tools DurationMin scenario1
            (window_kw 1 2 2) (<["pre_max" := VFloat (Real 7)]> (window_kw 1 2 2)) _).
  intros key Hin. simpl in Hin. rewrite !elem_of_cons in Hin.
  destruct Hin as [-> | [-> | [-> | Hin]]]; [reflexivity..|].
  by apply elem_of_nil in Hin.
Defined.

(** The detector of the spec rejects a negative [delta] handed to the
    algorithm directly. *)
Lemma detector_error_propagates_witness :
  algorithm PeaksMax scenario1 (delta_kw (-1)) = (Raise (ParameterError "delta"), []).
Proof.
  exact (@detector_error_propagates exact _ spec_tools PeaksMax scenario1
           (delta_kw (-1)) (VFloat (Real (-1))) (ParameterError "delta") []
           eq_refl eq_refl eq_refl).
Defined.

Lemma PeaksNum_never_zero_witness :
  VInt 3 = VFloat (nan : exact) ∨ ∃ n : Z, VInt 3 = @VInt exact n ∧ (0 < n)%Z.
Proof.
  exact (@PeaksNum_never_zero exact _ spec_tools scenario1 (delta_kw 1) (VInt 3) []
           eq_refl).
Defined.

Lemma amplitude_indicators_return_witness :
  ∃ v, algorithm PeaksMean scenario1 (delta_kw 1)
       = (Return v, [] ++ if decide (length [1; 3; 5] = 0) then ["No peak found"] else []).
Proof.
  exact (@amplitude_indicators_return exact _ spec_tools PeaksMean scenario1 (delta_kw 1)
           (VFloat (Real 1)) [1; 3; 5] [2; 4] [Real 2; Real 3; Real 5] [Real 0; Real 0] []
           eq_refl eq_refl eq_refl eq_refl).
Defined.

Lemma interval_no_peaks_witness :
  algorithm SlopeMax (flat (Real 1)) (window_kw 1 2 2)
  = (Return (VFloat NaN), [] ++ ["No peaks found"]).
Proof.
  exact (@interval_no_peaks exact _ spec_tools SlopeMax (flat (Real 1)) (window_kw 1 2 2)
           (VFloat (Real 1)) [] [] [] [] [] eq_refl eq_refl eq_refl eq_refl eq_refl).
Defined.

Lemma interval_no_start_witness :
  algorithm SlopeMin plateau (window_kw 1 2 2)
  = (Return (VFloat NaN), [] ++ [] ++ ["Unable to detect the start of the peaks"]).
Proof.
  refine (@interval_no_start exact _ spec_tools SlopeMin plateau (window_kw 1 2 2)
            (VFloat (Real 1)) (VFloat (Real 2)) (VFloat (Real 2))
            [1] [] [Real 5] [] [] [] [] [] eq_refl eq_refl eq_refl eq_refl eq_refl _
            eq_refl eq_refl).
  discriminate.
Defined.

Lemma interval_indicators_return_witness :
  ∃ x, @algorithm exact _ win_tools DurationMin scenario1 (window_kw 1 2 2)
       = (Return (VFloat x), [] ++ [] ++ []).
Proof.
  refine (@interval_indicators_return exact _ win_tools DurationMin scenario1
            (window_kw 1 2 2) (VFloat (Real 1)) (VFloat (Real 2)) (VFloat (Real 2))
            [1; 3; 5] [2; 4] [Real 2; Real 3; Real 5] [Real 0; Real 0] []
            [0; 2; 4] [2; 4; 6] [] [Real 2; Real 2; Real 2] []
            eq_refl eq_refl eq_refl eq_refl eq_refl _ eq_refl _ eq_refl _);
    discriminate.
Defined.

(** The amplitude indicators give the same under the tools of the spec and
    under tools with another selector. *)
Lemma algorithm_calls_only_witness :
  @algorithm exact _ spec_tools PeaksMax scenario1 (delta_kw 1)
  = @algorithm exact _ win_tools PeaksMax scenario1 (delta_kw 1).
Proof.
  refine (@algorithm_calls_only exact _ spec_tools win_tools PeaksMax scenario1
            (delta_kw 1) _).
  split; [done|]. split; [discriminate|]. split; discriminate.
Defined.

(** The three duration indicators on the three peaks of amplitude 0.1, in
    binary64. *)
Lemma duration_indicators_agree_witness :
  ∃ mx mn av : float,
    @DurationMax_algorithm float _ win_tools64 tenths
      (window_kw64 0x1.999999999999ap-5 2 2)
    = (Return (VFloat mx), [] ++ [] ++ []) ∧
    @DurationMin_algorithm float _ win_tools64 tenths
      (window_kw64 0x1.999999999999ap-5 2 2)
    = (Return (VFloat mn), [] ++ [] ++ []) ∧
    @DurationMean_algorithm float _ win_tools64 tenths
      (window_kw64 0x1.999999999999ap-5 2 2)
    = (Return (VFloat av), [] ++ [] ++ []) ∧
    (isnan mx = true ↔ isnan mn = true) ∧
    (isnan mn = true → isnan av = true) ∧
    (isnan mx = false → fle mn mx = true).
Proof.
  refine (@duration_indicators_agree float _ _ win_tools64
            (window_kw64 0x1.999999999999ap-5 2 2)
            (VFloat 0x1.999999999999ap-5%float) (VFloat 2%float) (VFloat 2%float) tenths
            [1; 3; 5] [2; 4]
            [0x1.999999999999ap-4; 0x1.999999999999ap-4; 0x1.999999999999ap-4]%float
            [0; 0]%float []
            [0; 2; 4] [2; 4; 6] [] [2; 2; 2]%float []
            binary64_order_laws eq_refl eq_refl eq_refl eq_refl _ eq_refl _
            eq_refl eq_refl);
    discriminate.
Defined.

(** The three slope indicators on the three peaks of amplitude 0.1, in
    binary64. *)
Lemma slope_indicators_agree_witness :
  ∃ mx mn av : float,
    SlopeMax_algorithm tenths (window_kw64 0x1.999999999999ap-5 2 2)
    = (Return (VFloat mx), [] ++ [] ++ []) ∧
    SlopeMin_algorithm tenths (window_kw64 0x1.999999999999ap-5 2 2)
    = (Return (VFloat mn), [] ++ [] ++ []) ∧
    SlopeMean_algorithm tenths (window_kw64 0x1.999999999999ap-5 2 2)
    = (Return (VFloat av), [] ++ [] ++ []) ∧
    (isnan mx = true ↔ isnan mn = true) ∧
    (isnan mn = true → isnan av = true) ∧
    (isnan mx = false → fle mn mx = true).
Proof.
  refine (@slope_indicators_agree float _ _ spec_tools
            (window_kw64 0x1.999999999999ap-5 2 2)
            (VFloat 0x1.999999999999ap-5%float) (VFloat 2%float) (VFloat 2%float) tenths
            [1; 3; 5] [2; 4]
            [0x1.999999999999ap-4; 0x1.999999999999ap-4; 0x1.999999999999ap-4]%float
            [0; 0]%float []
            [0; 2; 4] [2; 4; 6] []
            [0x1.999999999999ap-4; 0x1.999999999999ap-4; 0x1.999999999999ap-4]%float []
            binary64_order_laws eq_refl eq_refl eq_refl eq_refl eq_refl eq_refl _
            eq_refl _ eq_refl _);
    discriminate.
Defined.

(** The selector of the spec raises when it is built without [pre_max]. *)
Lemma PeakSelection_needs_pre_max (signal : Signal exact)
    (kwargs : gmap string (value exact)) :
  kwargs !! "pre_max" = None →
  ∃ e w, PeakSelection kwargs signal = (Raise e, w).
Proof.
  intros Hpre. unfold PeakSelection, indices_arg, float_arg. rewrite Hpre.
  destruct (kwargs !! "idx_max") as [[]|]; by eexists _, _.
Qed.

Lemma duration_selector_keywords_witness :
  ∃ e w, algorithm DurationMean scenario1 (window_kw 1 2 2) = (Raise e, w).
Proof.
  exact (@duration_selector_keywords exact _ spec_tools DurationMean scenario1
           (window_kw 1 2 2) (VFloat (Real 1)) (VFloat (Real 2)) (VFloat (Real 2))
           [1; 3; 5] [2; 4] [Real 2; Real 3; Real 5] [Real 0; Real 0] []
           eq_refl eq_refl eq_refl eq_refl eq_refl
           (λ H : length [1; 3; 5] = 0, O_S _ (eq_sym H))
           (PeakSelection_needs_pre_max scenario1)).
Defined.

(* ===================================================================== *)
(** ** The loaders of [Files.py] *)

(** Text without a brace is its own formatting, whatever the arguments. *)
Lemma format_auto_literal (template : string) (args : list string) :
  Files.brace_free template = true →
  Files.format_auto template args = Files.Returns template.
Proof.
  induction template as [|c rest IH]; [done|].
  simpl. intros [Hc Hrest]%andb_prop.
  apply negb_true_iff, orb_false_iff in Hc as [-> ->].
  by rewrite (IH Hrest).
Qed.

(** X12.  When the file has no column of the name asked for,
    [load_data_series] and [load_rr_data_series] raise a [KeyError] whose
    message is the template itself, "COLUMN_NAME: Column %s not found in
    file %s": the template has no replacement field, so [format] puts neither
    the column nor the path into it. *)
Theorem load_data_series_missing_column {cell series : Type}
    (read_csv : string → string → Files.result (@Files.DataFrame cell))
    (format : string → list string → Files.result string)
    (DataSeries : list cell → Files.result series)
    (set_name : string → series → series) (is_Series : series → bool)
    (path column sep : string) (d : @Files.DataFrame cell) :
  (∀ template args, Files.brace_free template = true →
                    format template args = Files.Returns template) →
  read_csv path sep = Files.Returns d →
  d !! column = None →
  Files.load_data_series read_csv format DataSeries set_name is_Series path column sep
  = Files.Raises (Files.KeyError "COLUMN_NAME: Column %s not found in file %s") ∧
  Files.load_rr_data_series read_csv format DataSeries set_name is_Series path column sep
  = Files.Raises (Files.KeyError "COLUMN_NAME: Column %s not found in file %s").
Proof.
  intros Hformat Hread Hcol.
  unfold Files.load_rr_data_series, Files.load_data_series.
  rewrite Hread, Hcol, Hformat by done. done.
Qed.

Lemma load_data_series_missing_column_witness :
  Files.load_data_series Files.ibi_file Files.format_auto
    (λ cells, Files.Returns cells) (λ _ inst, inst) (λ _, true) "rr.csv" "RR" ","
  = Files.Raises (Files.KeyError "COLUMN_NAME: Column %s not found in file %s") ∧
  Files.load_rr_data_series Files.ibi_file Files.format_auto
    (λ cells, Files.Returns cells) (λ _ inst, inst) (λ _, true) "rr.csv" "RR" ","
  = Files.Raises (Files.KeyError "COLUMN_NAME: Column %s not found in file %s").
Proof.
  exact (@load_data_series_missing_column Z (list Z) Files.ibi_file Files.format_auto
           (λ cells, Files.Returns cells) (λ _ inst, inst) (λ _, true)
           "rr.csv" "RR" "," {[ "IBI" := [800; 810; 790]%Z ]}
           format_auto_literal eq_refl eq_refl).
Defined.
